(** * Caproni/Reporting: the log scraper and the tag resolver

    A shallow embedding of [src/utils/logger.py] ([LogScraper]) and of
    [src/tags/process_tag.py], [src/tags/get_data_from_tag.py], followed by the
    properties of the specification that were checked against them.

    Conventions.
    - A Python [str] is a list of characters; a character is a code point
      below 256 ([ascii]).
    - The library functions the code calls ([re.search], [re.match],
      [str.replace], [str.strip], [str.split], [int], [datetime.fromisoformat])
      are modelled as CPython 3.11 defines them, on the arguments the code
      can pass to them.
    - A call either returns a value or raises: [result]. *)

From Stdlib Require Import Ascii String ZArith List Lia.
From stdpp Require Import base option list gmap strings.
Import ListNotations.

Local Open Scope string_scope.
Local Open Scope list_scope.
Local Open Scope nat_scope.

(** ** Text *)

#[warning="-notation-for-abbreviation"] Notation str := (list ascii).

(** A literal of the source, as a [str]. *)
Definition py (s : string) : str := list_ascii_of_string s.

(** The line feed. *)
Definition newline : str := ["010"%char].

Definition code (c : ascii) : nat := nat_of_ascii c.

Definition in_range (a b : ascii) (c : ascii) : bool :=
  (code a <=? code c) && (code c <=? code b).

Definition is_digit : ascii -> bool := in_range "0" "9".
Definition is_upper : ascii -> bool := in_range "A" "Z".
Definition is_lower : ascii -> bool := in_range "a" "z".
Definition is_char (a : ascii) (c : ascii) : bool := Ascii.eqb a c.
Arguments is_char : simpl never.
Arguments in_range : simpl never.

(** [str.isspace] on code points below 256: TAB..CR, FS..US, the space, NEL
    and the no-break space. *)
Definition is_space (c : ascii) : bool :=
  let n := code c in
  ((9 <=? n) && (n <=? 13)) || ((28 <=? n) && (n <=? 32))
  || (n =? 133) || (n =? 160).

(** [s.startswith(p)] *)
Fixpoint startswith (p s : str) : bool :=
  match p, s with
  | [], _ => true
  | x :: p', y :: s' => Ascii.eqb x y && startswith p' s'
  | _ :: _, [] => false
  end.

(** [old in s] *)
Fixpoint contains (old s : str) : bool :=
  startswith old s || match s with [] => false | _ :: s' => contains old s' end.

(** [s.lstrip()], [s.rstrip()], [s.strip()] *)
Fixpoint lstrip (s : str) : str :=
  match s with
  | c :: s' => if is_space c then lstrip s' else s
  | [] => []
  end.

Definition rstrip (s : str) : str := rev (lstrip (rev s)).
Definition strip (s : str) : str := rstrip (lstrip s).

(** [s.replace(old, new)]: the occurrences of [old] are replaced from the
    left, each search resuming after the occurrence just replaced. [skip]
    counts the characters of that occurrence still to be passed over. With an
    empty [old], [new] is put before every character and at the end. *)
Fixpoint replace_from (old new : str) (skip : nat) (s : str) : str :=
  match s with
  | [] => []
  | c :: s' =>
      match skip with
      | S k => replace_from old new k s'
      | 0 =>
          if startswith old s
          then new ++ replace_from old new (length old - 1) s'
          else c :: replace_from old new 0 s'
      end
  end.

Definition replace (old new : str) (s : str) : str :=
  match old with
  | [] => new ++ flat_map (fun c => c :: new) s
  | _ :: _ => replace_from old new 0 s
  end.

(** [s.split(sep)] for a separator of one character: every occurrence
    splits, so the result has one piece more than [s] has separators. *)
Fixpoint split (sep : ascii) (s : str) : list str :=
  match s with
  | [] => [[]]
  | c :: s' =>
      if Ascii.eqb c sep then [] :: split sep s'
      else match split sep s' with
           | p :: ps => (c :: p) :: ps
           | [] => [[c]]
           end
  end.

(** ** Regular expressions

    The patterns of the source are sequences of character classes, each
    repeated between [lo] and [hi] times, greedily or lazily. [re.match] tries
    the counts of the first class in the order of its quantifier and, for each,
    matches the rest: the first success wins (backtracking). The result lists
    the text each class consumed. *)

Record atom := Atom {
  cls : ascii -> bool;
  lo : nat;
  hi : option nat;
  greedy : bool
}.

Definition lit (c : ascii) : atom := Atom (is_char c) 1 (Some 1) true.
Definition one (p : ascii -> bool) : atom := Atom p 1 (Some 1) true.
Definition times (n : nat) (p : ascii -> bool) : atom := Atom p n (Some n) true.
Definition at_least (n : nat) (p : ascii -> bool) : atom := Atom p n None true.
Definition lazy_star (p : ascii -> bool) : atom := Atom p 0 None false.

(** The number of leading characters of [s] in the class [p]. *)
Fixpoint span (p : ascii -> bool) (s : str) : nat :=
  match s with
  | c :: s' => if p c then S (span p s') else 0
  | [] => 0
  end.

(** The repetition counts [re] tries for [a] at the head of [s], in order. *)
Definition counts (a : atom) (s : str) : list nat :=
  let m := span (cls a) s in
  let m := match hi a with Some h => Nat.min h m | None => m end in
  let ks := seq (lo a) (S m - lo a) in
  if greedy a then rev ks else ks.

Fixpoint first_some {A B} (f : A -> option B) (l : list A) : option B :=
  match l with
  | [] => None
  | x :: l' => match f x with Some y => Some y | None => first_some f l' end
  end.

(** [re.match(re, s)]: the pieces matched, class by class. *)
Fixpoint re_match (re : list atom) (s : str) : option (list str) :=
  match re with
  | [] => Some []
  | a :: re' =>
      first_some
        (fun k => match re_match re' (drop k s) with
                  | Some ps => Some (take k s :: ps)
                  | None => None
                  end)
        (counts a s)
  end.

(** [re.search(re, s)]: the match at the leftmost position that has one. *)
Fixpoint search (re : list atom) (s : str) : option (list str) :=
  match re_match re s with
  | Some ps => Some ps
  | None => match s with
            | [] => None
            | _ :: s' => search re s'
            end
  end.

(** [m.group()]: the whole matched text. *)
Definition group (ps : list str) : str := concat ps.

(** The character classes of the three patterns of [LogScraper]. *)
Definition dot (c : ascii) : bool := negb (is_char "010" c).
Definition filename_char (c : ascii) : bool :=
  is_lower c || is_upper c || is_digit c
  || is_char "_" c || is_char "." c || is_char ":" c.

(** [r"2[0-9]{3}-[0-1][0-9]-[0-3][0-9] [0-2][0-9]:[0-5][0-9]:[0-5][0-9].[0-9]{3}"] *)
Definition TIMESTAMP_REGEX : list atom :=
  [ lit "2"; times 3 is_digit; lit "-";
    one (in_range "0" "1"); one is_digit; lit "-";
    one (in_range "0" "3"); one is_digit; lit " ";
    one (in_range "0" "2"); one is_digit; lit ":";
    one (in_range "0" "5"); one is_digit; lit ":";
    one (in_range "0" "5"); one is_digit; one dot;
    times 3 is_digit ].

(** [r"[A-Z]{4,}"] *)
Definition LOG_LEVEL_REGEX : list atom := [ at_least 4 is_upper ].

(** [r"\[([a-zA-Z0-9_.:]+)]"]; group 1 is the second piece. *)
Definition FILENAME_LINE_NUMBER_REGEX : list atom :=
  [ lit "["; at_least 1 filename_char; lit "]" ].

Definition group1 (ps : list str) : str := nth 1 ps [].

(** What a match is made of: one piece per class, each of characters of the
    class and of a length the quantifier allows, and the pieces in a row
    are the start of the text. *)
Definition piece_of (a : atom) (piece : str) : Prop :=
  lo a <= length piece
  /\ (forall h, hi a = Some h -> length piece <= h)
  /\ forallb (cls a) piece = true.

(** ** Exceptions and results *)

Inductive isoformat_error :=
| Invalid_isoformat_string (s : str)
| Year_out_of_range
| Month_must_be_in_1_12
| Day_out_of_range_for_month
| Hour_must_be_in_0_23
| Minute_must_be_in_0_59
| Second_must_be_in_0_59.

(** The exceptions the modelled code raises, by the operation that raises
    them. *)
Inductive exn :=
| IndexError_list_index_out_of_range
| ValueError_fromisoformat (why : isoformat_error)
| ValueError_unpack (expected got : nat)
| ValueError_int_literal (s : str)
| ValueError_int_digit_limit
| TypeError_replace_argument
| AttributeError (name : string)
| RecursionError.

(** The name of the Python class of an exception. *)
Definition exn_class (e : exn) : string :=
  match e with
  | IndexError_list_index_out_of_range => "IndexError"
  | ValueError_fromisoformat _ | ValueError_unpack _ _
  | ValueError_int_literal _ | ValueError_int_digit_limit => "ValueError"
  | TypeError_replace_argument => "TypeError"
  | AttributeError _ => "AttributeError"
  | RecursionError => "RecursionError"
  end.

Inductive result (A : Type) :=
| Ret (a : A)
| Raise (e : exn).
Arguments Ret {A} a.
Arguments Raise {A} e.

Definition bind {A B} (r : result A) (k : A -> result B) : result B :=
  match r with
  | Ret a => k a
  | Raise e => Raise e
  end.

Notation "'let*' x ':=' r 'in' k" := (bind r (fun x => k))
  (at level 10, x name, r at level 100, k at level 200).

Definition raises {A} (r : result A) (class : string) : Prop :=
  exists e, r = Raise e /\ exn_class e = class.

(** ** [int] and [datetime.fromisoformat] *)

Definition digit_value (c : ascii) : Z := Z.of_nat (code c - code "0").

(** The digits of a decimal literal, underscores dropped: one underscore may
    stand between two digits, nowhere else. [after_digit] tells whether the
    previous character was a digit. *)
Fixpoint literal_digits (after_digit : bool) (s : str) : option (list ascii) :=
  match s with
  | [] => if after_digit then Some [] else None
  | c :: s' =>
      if is_digit c then
        match literal_digits true s' with
        | Some ds => Some (c :: ds)
        | None => None
        end
      else if is_char "_" c && after_digit then literal_digits false s'
      else None
  end.

Definition decimal (ds : list ascii) : Z :=
  fold_left (fun n c => (10 * n + digit_value c)%Z) ds 0%Z.

(** [sys.get_int_max_str_digits()], as the interpreter starts. *)
Definition int_max_str_digits : nat := 4300.

(** [int(s)], for [s] without sign and without white space (the characters
    [FILENAME_LINE_NUMBER_REGEX] lets through have neither). *)
Definition int (s : str) : result Z :=
  match literal_digits false s with
  | Some ds =>
      if int_max_str_digits <? length ds then Raise ValueError_int_digit_limit
      else Ret (decimal ds)
  | None => Raise (ValueError_int_literal s)
  end.

Record datetime := Datetime {
  year : Z; month : Z; day : Z;
  hour : Z; minute : Z; second : Z; microsecond : Z
}.

Definition is_leap (y : Z) : bool :=
  ((y mod 4 =? 0) && negb (y mod 100 =? 0) || (y mod 400 =? 0))%Z.

Definition days_in_month (y m : Z) : Z :=
  if (m =? 2)%Z then (if is_leap y then 29 else 28)%Z
  else if ((m =? 4) || (m =? 6) || (m =? 9) || (m =? 11))%Z then 30%Z
  else 31%Z.

(** [datetime.fromisoformat(s)] for a text of 23 characters, digits but for
    [dddd-dd-dd?dd:dd:dd?ddd], the only shape [TIMESTAMP_REGEX] yields (lemma
    [timestamp_match_shape]); any other argument is outside this model and
    is answered as an invalid string. The character between date and
    time is free; the one before the fraction is [.], [,] or, as CPython's C
    parser has it, [:]. The fields are parsed first, then checked by the
    constructor, date before time. *)
Definition fromisoformat (s : str) : result datetime :=
  match s with
  | [y1; y2; y3; y4; d1; m1; m2; d2; a1; a2; _; h1; h2; c1; n1; n2; c2;
     s1; s2; f; u1; u2; u3] =>
      if forallb is_digit [y1; y2; y3; y4; m1; m2; a1; a2; h1; h2; n1; n2;
                           s1; s2; u1; u2; u3]
         && is_char "-" d1 && is_char "-" d2
         && is_char ":" c1 && is_char ":" c2
         && (is_char "." f || is_char "," f || is_char ":" f)
      then
        let y := decimal [y1; y2; y3; y4] in
        let m := decimal [m1; m2] in
        let d := decimal [a1; a2] in
        let h := decimal [h1; h2] in
        let mi := decimal [n1; n2] in
        let se := decimal [s1; s2] in
        if negb (1 <=? y)%Z then Raise (ValueError_fromisoformat Year_out_of_range)
        else if negb ((1 <=? m) && (m <=? 12))%Z
        then Raise (ValueError_fromisoformat Month_must_be_in_1_12)
        else if negb ((1 <=? d) && (d <=? days_in_month y m))%Z
        then Raise (ValueError_fromisoformat Day_out_of_range_for_month)
        else if negb (h <=? 23)%Z
        then Raise (ValueError_fromisoformat Hour_must_be_in_0_23)
        else if negb (mi <=? 59)%Z
        then Raise (ValueError_fromisoformat Minute_must_be_in_0_59)
        else if negb (se <=? 59)%Z
        then Raise (ValueError_fromisoformat Second_must_be_in_0_59)
        else Ret (Datetime y m d h mi se (decimal [u1; u2; u3] * 1000))
      else Raise (ValueError_fromisoformat (Invalid_isoformat_string s))
  | _ => Raise (ValueError_fromisoformat (Invalid_isoformat_string s))
  end.

(** ** [LogScraper.scrape_log] *)

(** One parsed entry: the dictionary [scrape_log] appends for a line that
    starts a record. *)
Record entry := Entry {
  log_date : datetime;
  log_level : option str;
  log_filename : option str;
  log_line_number : Z;
  content : str;
  traceback : list str
}.

(** [e["traceback"].append(line)] *)
Definition traceback_append (line : str) (e : entry) : entry :=
  Entry (log_date e) (log_level e) (log_filename e) (log_line_number e)
        (content e) (traceback e ++ [line]).

(** [log_content.replace(m.group(), "").strip()]: how each of the three
    fields is taken out of the working text. *)
Definition remove_match (m : str) (log_content : str) : str :=
  strip (replace m [] log_content).

(** Lines 239 to 245: the level and the working text after it. *)
Definition extract_level (log_content : str) : option str * str :=
  match search LOG_LEVEL_REGEX log_content with
  | Some m => (Some (group m), remove_match (group m) log_content)
  | None => (None, log_content)
  end.

(** The assignment of lines 253 to 256: a list is unpacked into two names. *)
Definition unpack2 (l : list str) : result (str * str) :=
  match l with
  | [a; b] => Ret (a, b)
  | _ => Raise (ValueError_unpack 2 (length l))
  end.

(** Lines 247 to 259: file name, line number text and the working text
    after them. *)
Definition extract_filename_line_number (log_content : str)
  : result (option str * option str * str) :=
  match re_match FILENAME_LINE_NUMBER_REGEX log_content with
  | Some m =>
      let* fl := unpack2 (split ":" (group1 m)) in
      Ret (Some (fst fl), Some (snd fl), remove_match (group m) log_content)
  | None => Ret (None, None, log_content)
  end.

(** [int(log_line_number) if log_line_number else 0] *)
Definition line_number_value (log_line_number : option str) : result Z :=
  match log_line_number with
  | Some (c :: n) => int (c :: n)
  | Some [] | None => Ret 0%Z
  end.

(** The body of the loop of [scrape_log], lines 222 to 272, for one line
    [log_content] and the entries parsed so far. *)
Definition scrape_line (parsed_log_entries : list entry) (log_content : str)
  : result (list entry) :=
  match search TIMESTAMP_REGEX log_content with
  | None =>
      (* parsed_log_entries[-1]["traceback"].append(log_content) *)
      match last parsed_log_entries with
      | Some e =>
          Ret (<[length parsed_log_entries - 1 :=
                   traceback_append log_content e]> parsed_log_entries)
      | None => Raise IndexError_list_index_out_of_range
      end
  | Some m =>
      let* log_date := fromisoformat (group m) in
      let log_content := remove_match (group m) log_content in
      let (log_level, log_content) := extract_level log_content in
      let* r := extract_filename_line_number log_content in
      let '(log_filename, log_line_number, log_content) := r in
      let* n := line_number_value log_line_number in
      Ret (parsed_log_entries
             ++ [Entry log_date log_level log_filename n log_content []])
  end.

Fixpoint scrape_lines (parsed_log_entries : list entry) (log_lines : list str)
  : result (list entry) :=
  match log_lines with
  | [] => Ret parsed_log_entries
  | log_content :: rest =>
      let* parsed := scrape_line parsed_log_entries log_content in
      scrape_lines parsed rest
  end.

(** [scrape_log], from the lines read from the log file ([readlines], each
    line with its line feed) to the value returned. The records the function
    writes to the module's logger on its way do not enter the result and are
    left out. *)
Definition scrape_log (log_lines : list str) : result (list entry) :=
  scrape_lines [] log_lines.

(** The continuation lines [lines], appended in order. *)
Definition traceback_extend (lines : list str) (e : entry) : entry :=
  fold_left (fun e line => traceback_append line e) lines e.

(** ** The extraction of file and line as the specification words it

    "Split the inner token on the first colon into filename and line-number
    substrings; parse the line-number substring as an integer (0 if the
    substring is empty)." These two definitions follow that sentence, not the
    code; [file_and_line_of_code] is what the code computes from the same
    token. *)

(** The text before the first [sep] and the text after it. *)
Fixpoint split_first (sep : ascii) (s : str) : str * str :=
  match s with
  | [] => ([], [])
  | c :: s' =>
      if Ascii.eqb c sep then ([], s')
      else let (a, b) := split_first sep s' in (c :: a, b)
  end.

Definition file_and_line_of_spec (inner : str) : result (str * Z) :=
  let (file, number) := split_first ":" inner in
  let* n := match number with [] => Ret 0%Z | _ :: _ => int number end in
  Ret (file, n).

Definition file_and_line_of_code (inner : str) : result (str * Z) :=
  let* fl := unpack2 (split ":" inner) in
  let* n := line_number_value (Some (snd fl)) in
  Ret (fst fl, n).

(** [s.count(c)] *)
Fixpoint count (c : ascii) (s : str) : nat :=
  match s with
  | [] => 0
  | x :: s' => (if Ascii.eqb x c then 1 else 0) + count c s'
  end.

(** ** What [replace] with an empty replacement leaves

    [removed_all old s r]: [r] is [s] without the occurrences of [old], found
    from the left, each search starting after the occurrence before it. *)

(** No occurrence of [old] starts in [s] before position [n]. *)
Fixpoint no_start_before (old : str) (n : nat) (s : str) : Prop :=
  match n with
  | 0 => True
  | S n' => startswith old s = false
            /\ match s with
               | [] => True
               | _ :: s' => no_start_before old n' s'
               end
  end.

Inductive removed_all (old : str) : str -> str -> Prop :=
| removed_none (s : str) :
    contains old s = false -> removed_all old s s
| removed_leftmost (a b r : str) :
    no_start_before old (length a) (a ++ old ++ b) ->
    removed_all old b r ->
    removed_all old (a ++ old ++ b) (a ++ r).

(** One extraction step: every occurrence of the matched text is removed,
    then the white space at both ends. *)
Definition taken_out (m before after : str) : Prop :=
  exists t, removed_all m before t /\ after = strip t.

(** ** One extraction step as the specification words it

    "Each extraction step removes exactly the leftmost matched substring from
    the working text before the next step runs; any later occurrence of the
    same substring survives." [remove_leftmost] and [remove_match_of_spec]
    follow that sentence, not the code; [remove_match] is what the code
    computes. *)
Fixpoint remove_leftmost (m s : str) : str :=
  if startswith m s then drop (length m) s
  else match s with
       | [] => []
       | c :: s' => c :: remove_leftmost m s'
       end.

Definition remove_match_of_spec (m log_content : str) : str :=
  strip (remove_leftmost m log_content).

(** ** The shape of a time stamp

    The 23 character classes [TIMESTAMP_REGEX] asks for, one per
    character. *)
Definition TIMESTAMP_CLASSES : list (ascii -> bool) :=
  [ is_char "2"; is_digit; is_digit; is_digit; is_char "-";
    in_range "0" "1"; is_digit; is_char "-";
    in_range "0" "3"; is_digit; is_char " ";
    in_range "0" "2"; is_digit; is_char ":";
    in_range "0" "5"; is_digit; is_char ":";
    in_range "0" "5"; is_digit; dot;
    is_digit; is_digit; is_digit ].

(** [s] starts with one character of each class of [cs], in order. *)
Fixpoint match_classes (cs : list (ascii -> bool)) (s : str) : bool :=
  match cs, s with
  | [], _ => true
  | p :: cs', c :: s' => p c && match_classes cs' s'
  | _ :: _, [] => false
  end.

(** A class repeated a fixed number of times; the classes of a pattern of
    such atoms, one per character; a text cut into pieces of given lengths. *)
Definition fixed (a : atom) : Prop := hi a = Some (lo a).

Definition expand (re : list atom) : list (ascii -> bool) :=
  flat_map (fun a => repeat (cls a) (lo a)) re.

Fixpoint chunks (ns : list nat) (s : str) : list str :=
  match ns with
  | [] => []
  | n :: ns' => take n s :: chunks ns' (drop n s)
  end.

(** [ts] is a text of the form [2ddd-dd-dd dd:dd:dd?ddd]. *)
Definition timestamp_shaped (ts : str) : Prop :=
  length ts = 23 /\ match_classes TIMESTAMP_CLASSES ts = true.

(** ** [process_tag] and [get_data_from_tag] *)

(** [r"\[\[(.*?)\]\]"] *)
Definition tag_pattern : list atom :=
  [ lit "["; lit "["; lazy_star dot; lit "]"; lit "]" ].

(** What [process_tag] may return: a text, or the object it was given as
    [data]. *)
Inductive value (Data : Type) :=
| Text (s : str)
| Object (d : Data).
Arguments Text {Data} s.
Arguments Object {Data} d.

(** [from src.utils import logger as log] in both files of [src/tags]:
    [src/utils] holds [logger.py] and no [__init__.py], so the import binds
    [log] to the module [src.utils.logger]. These are the names that module
    has: the ones every module has, then its imports, classes, functions and
    assignments in the order of the file. [function_call] is a method of the
    class [CustomLogger]; the module has no such name. *)
Definition logger_module : list string :=
  [ "__name__"; "__doc__"; "__package__"; "__loader__"; "__spec__";
    "__file__"; "__cached__"; "__builtins__";
    "Callable"; "Optional"; "Any"; "FrameType";
    "Logger"; "Formatter"; "StreamHandler"; "getLogger"; "INFO";
    "setLoggerClass"; "ConcurrentRotatingFileHandler"; "gettempdir";
    "search"; "match"; "join"; "basename"; "datetime"; "time"; "inspect";
    "CustomLogger"; "function_timer"; "WhitespaceRemovingFormatter";
    "formatter"; "file_handler"; "console_handler"; "logger";
    "LogScraper" ].

(** [module.name]: the name when the module has it, else the
    [AttributeError] of the lookup. *)
Definition module_getattr (module : list string) (name : string)
  : result string :=
  if bool_decide (name ∈ module) then Ret name
  else Raise (AttributeError name).

(** The statement [log.function_call()] with the files of the repository:
    the lookup of the name in the module comes first and fails, so nothing
    is called. *)
Definition log_function_call : result unit :=
  let* _ := module_getattr logger_module "function_call" in Ret tt.

Section Tags.
Context {Data : Type}.

(** The outcome of the statement [log.function_call()], the first one of
    both functions. It depends on what [log] is bound to, which the import
    decides and not the functions: [log_function_call] above is the outcome
    with the files of the repository. *)
Variable function_call : result unit.

Definition get_data_from_tag (tag : str) (data : Data) : result (value Data) :=
  let* _ := function_call in
  Ret (Object data).

(** [depth] is the room left on the interpreter's stack, [iterations] a
    bound on the turns of the [while] loop: [None] when it is not
    enough. *)
Fixpoint process_tag (depth iterations : nat) (tag : str) (data : Data)
  : option (result (value Data)) :=
  match depth with
  | 0 => Some (Raise RecursionError)
  | S depth' =>
      match function_call with
      | Raise e => Some (Raise e)
      | Ret _ =>
          match search tag_pattern tag with
          | None => Some (get_data_from_tag tag data)
          | Some _ =>
              (fix while (n : nat) (tag : str) {struct n} :=
                 match search tag_pattern tag with
                 | None => Some (Ret (Text tag))
                 | Some m =>
                     match n with
                     | 0 => None
                     | S n' =>
                         let inner_tag := group m in
                         match process_tag depth' iterations inner_tag data with
                         | Some (Ret (Text inner_content)) =>
                             while n' (replace inner_tag inner_content tag)
                         | Some (Ret (Object _)) =>
                             Some (Raise TypeError_replace_argument)
                         | Some (Raise e) => Some (Raise e)
                         | None => None
                         end
                     end
                 end) iterations tag
          end
      end
  end.
End Tags.

(** ** The module's logger and [LogScraper.delete_log] *)

(** The part of the world [delete_log] can reach: the files, by path; the
    path the file handler of the module writes to,
    [join(gettempdir(), "reporting.log")]; the time as the formatter prints
    it, [%(asctime)s.%(msecs)03d]; what the console handler has written. *)
Record world := World {
  files : gmap string str;
  handler_file : string;
  now : str;
  console : list str
}.

Definition MAX_LENGTH : nat := 10000.

(** [WhitespaceRemovingFormatter.format] with the format string of line 140,
    for a record made in [logger.py] at line [lineno]. *)
Definition format (now : str) (levelname lineno : string) (msg : str) : str :=
  let msg := strip msg in
  let msg := if MAX_LENGTH <? length msg
             then take MAX_LENGTH msg ++ py "..." else msg in
  now ++ py " " ++ py levelname ++ py " [logger.py:" ++ py lineno ++ py "] "
      ++ msg.

Definition maxBytes : Z := 10000000.
Definition backupCount : nat := 5.

Definition backup (base : string) (i : nat) : string :=
  base +:+ "." +:+ String (ascii_of_nat (48 + i)) "".

Definition rename (src dst : string) (fs : gmap string str) : gmap string str :=
  match fs !! src with
  | Some c => <[dst := c]> (delete src fs)
  | None => fs
  end.

(** The file handler is the [ConcurrentRotatingFileHandler] of the package
    [concurrent_log_handler], which is not part of the repository. Its
    [emit] decides the rollover on the size of the file alone, whatever the
    length of the record: when the file has already reached [maxBytes], the
    backups [.1] to [.5] are shifted and the file becomes [.1]; the record
    is then appended to the handler's file, which is created when absent.
    Sizes are in bytes, a character of a file being one byte here. The lock
    file the handler keeps beside its log is not modelled. *)
Definition doRollover (base : string) (fs : gmap string str) : gmap string str :=
  let fs := fold_left (fun fs i => rename (backup base i) (backup base (S i)) fs)
                      (rev (seq 1 (backupCount - 1))) fs in
  rename base (backup base 1) fs.

Definition file_handler_emit (line : str) (w : world) : world :=
  let base := handler_file w in
  let text := line ++ newline in
  let old := default [] (files w !! base) in
  let fs := if (maxBytes <=? Z.of_nat (length old))%Z
            then doRollover base (files w) else files w in
  World (<[base := default [] (fs !! base) ++ text]> fs)
        (handler_file w) (now w) (console w).

Definition console_handler_emit (line : str) (w : world) : world :=
  World (files w) (handler_file w) (now w) (console w ++ [line]).

(** [logger.info(msg)], [logger.error(msg)]: the level of the logger is
    [INFO], both handlers get the record. *)
Definition logger_log (levelname lineno : string) (msg : str) (w : world)
  : world :=
  let line := format (now w) levelname lineno msg in
  console_handler_emit line (file_handler_emit line w).

(** An instance, as the dictionary of its attributes. *)
Record LogScraper := { attributes : gmap string string }.

(** [delete_log]: the outcome, the instance and the world after the call.
    [del] raises [AttributeError] for an attribute the instance does not
    have; the handler of the [try] catches [IOError] only. *)
Definition delete_log (self : LogScraper) (w : world)
  : result unit * LogScraper * world :=
  let w := logger_log "INFO" "194" (py "Calling delete_log") w in
  match attributes self !! "log_file_path" with
  | Some _ =>
      (Ret tt,
       {| attributes := delete "log_file_path" (attributes self) |},
       logger_log "INFO" "197" (py "Log deleted.") w)
  | None => (Raise (AttributeError "log_file_path"), self, w)
  end.

(** The files the handler writes: its file and the five backups. *)
Definition handler_files (w : world) : list string :=
  handler_file w :: map (backup (handler_file w)) (seq 1 backupCount).

(** ** The lines of a log, seen from the result *)

(** The line has a time stamp: it starts an entry. *)
Definition starts_entry (line : str) : bool :=
  match search TIMESTAMP_REGEX line with
  | Some _ => true
  | None => false
  end.

(** The lines at the head of [lines] that have no time stamp. *)
Fixpoint leading_continuations (lines : list str) : list str :=
  match lines with
  | [] => []
  | line :: rest =>
      if starts_entry line then [] else line :: leading_continuations rest
  end.

(** The entry as it was appended, before any traceback line. *)
Definition without_traceback (e : entry) : entry :=
  Entry (log_date e) (log_level e) (log_filename e) (log_line_number e)
        (content e) [].

(** What every entry of a result satisfies. *)
Definition date_in_range (d : datetime) : Prop :=
  (2000 <= year d <= 2999 /\ 1 <= month d <= 12
   /\ 1 <= day d <= days_in_month (year d) (month d)
   /\ 0 <= hour d <= 23 /\ 0 <= minute d <= 59 /\ 0 <= second d <= 59
   /\ 0 <= microsecond d <= 999000 /\ microsecond d mod 1000 = 0)%Z.

Definition well_formed (e : entry) : Prop :=
  date_in_range (log_date e)
  /\ (forall lv, log_level e = Some lv ->
        4 <= length lv /\ forallb is_upper lv = true)
  /\ (forall file, log_filename e = Some file ->
        forallb filename_char file = true /\ count ":" file = 0)
  /\ (0 <= log_line_number e)%Z
  /\ strip (content e) = content e
  /\ Forall (fun line => search TIMESTAMP_REGEX line = None) (traceback e).

(** ** The record as the handlers share it *)

(** [f"{msg[:n]}..."] for a message of more than [n] characters. *)
Definition truncate (n : nat) (msg : str) : str :=
  if n <? length msg then take n msg ++ py "..." else msg.

(** What [WhitespaceRemovingFormatter.format] leaves in [record.msg]. *)
Definition normalise (msg : str) : str :=
  let msg := strip msg in
  if MAX_LENGTH <? length msg then take MAX_LENGTH msg ++ py "..." else msg.

(** [formatter.format(record)]: the text, and [record.msg] after the call,
    which assigns to it. *)
Definition format_record (now : str) (levelname lineno : string)
  (record_msg : str) : str * str :=
  let msg := strip record_msg in
  let msg := if MAX_LENGTH <? length msg
             then take MAX_LENGTH msg ++ py "..." else msg in
  (now ++ py " " ++ py levelname ++ py " [logger.py:" ++ py lineno ++ py "] "
       ++ msg,
   msg).

(** [Logger.callHandlers(record)]: the file handler, added first, then
    the console handler, each formatting the one record. *)
Definition callHandlers (levelname lineno : string) (msg : str) (w : world)
  : world :=
  let (line1, msg1) := format_record (now w) levelname lineno msg in
  let w1 := file_handler_emit line1 w in
  let (line2, _) := format_record (now w1) levelname lineno msg1 in
  console_handler_emit line2 w1.

(** [LogScraper._init_] *)
Definition _init_ (self : LogScraper) (log_file_path : string) : LogScraper :=
  {| attributes := <["log_file_path" := log_file_path]> (attributes self) |}.

(** ** [scrape_log] as a method: the file, the logger, the loop *)

(** Reading in text mode: [\r\n] and [\r] become the line feed. *)
Fixpoint universal_newlines (s : str) : str :=
  match s with
  | [] => []
  | c :: s' =>
      if Ascii.eqb c "013" then
        "010"%char
        :: match s' with
           | c' :: s'' =>
               if Ascii.eqb c' "010" then universal_newlines s''
               else universal_newlines s'
           | [] => []
           end
      else c :: universal_newlines s'
  end.

(** Neither carriage return nor line feed. *)
Definition plain (c : ascii) : bool :=
  negb (Ascii.eqb c "013") && negb (Ascii.eqb c "010").

(** The lines of a text, each with its line feed, the last one maybe
    without. *)
Fixpoint lines_of (s : str) : list str :=
  match s with
  | [] => []
  | c :: s' =>
      if Ascii.eqb c "010" then [c] :: lines_of s'
      else match lines_of s' with
           | [] => [[c]]
           | l :: ls => (c :: l) :: ls
           end
  end.

(** [log_file.readlines()] for a file of text [content]. *)
Definition readlines (content : str) : list str :=
  lines_of (universal_newlines content).

(** What the method raises: an exception of the loop or of [del], or the
    [FileNotFoundError] of [open]. *)
Inductive raised :=
| Exception (e : exn)
| FileNotFoundError (path : string).

(** The loop of lines 217 to 272 with the record it writes for each line
    without a time stamp, before it touches the list. *)
Fixpoint scrape_loop (parsed_log_entries : list entry) (log_lines : list str)
  (w : world) : result (list entry) * world :=
  match log_lines with
  | [] => (Ret parsed_log_entries, w)
  | log_content :: rest =>
      let w := if starts_entry log_content then w
               else logger_log "INFO" "233"
                      (py "Log line does not start with timestamp. Assuming traceback found and appending to last record.")
                      w in
      match scrape_line parsed_log_entries log_content with
      | Ret parsed => scrape_loop parsed rest w
      | Raise e => (Raise e, w)
      end
  end.

(** [LogScraper.scrape_log], lines 208 to 274, on the files of [w]: a file
    is a text, present or absent. *)
Definition scrape_log_method (self : LogScraper) (w : world)
  : (raised + list entry) * world :=
  let w := logger_log "INFO" "208" (py "Calling scrape_log") w in
  match attributes self !! "log_file_path" with
  | None => (inl (Exception (AttributeError "log_file_path")), w)
  | Some path =>
      match files w !! path with
      | None => (inl (FileNotFoundError path), w)
      | Some content =>
          let log_lines := readlines content in
          let w := logger_log "INFO" "214"
                     (py "Log read successful. Scraping log.") w in
          match scrape_loop [] log_lines w with
          | (Ret parsed_log_entries, w) => (inr parsed_log_entries, w)
          | (Raise e, w) => (inl (Exception e), w)
          end
      end
  end.

(** ** Data of the examples *)

(** What [re.search] found, the empty list when it found nothing. *)
Definition found (re : list atom) (s : str) : list str :=
  default [] (search re s).

Definition line_minimal : str :=
  py "2024-01-15 10:30:00.123 INFO [app.py:42] Started service".
Definition line_repeated_level : str :=
  py "2024-01-15 10:30:00.123 INFO [app.py:42] INFO again".
Definition line_no_colon : str :=
  py "2024-01-15 10:30:00.123 INFO [appfile] Started service".
Definition line_two_colons : str :=
  py "2024-01-15 10:30:00.123 INFO [a:b:c] Started service".
Definition date_minimal : datetime := Datetime 2024 1 15 10 30 0 123000.
Definition entry_minimal : entry :=
  {| log_date := date_minimal;
     log_level := Some (py "INFO");
     log_filename := Some (py "app.py");
     log_line_number := 42;
     content := py "Started service";
     traceback := [] |}.

(** A scraper of the log file the module itself writes to. *)
Definition world_own_log : world :=
  {| files := {[ "/tmp/reporting.log" := line_minimal ++ newline ]};
     handler_file := "/tmp/reporting.log";
     now := py "2024-01-15 10:31:00.000";
     console := [] |}.
Definition scraper_own_log : LogScraper :=
  {| attributes := {[ "log_file_path" := "/tmp/reporting.log" ]} |}.
Definition scraper_other_log : LogScraper :=
  {| attributes := {[ "log_file_path" := "/var/log/app.log" ]} |}.

Definition world_other_log : world :=
  {| files := {[ "/var/log/app.log" :=
                   line_minimal ++ newline ++ py "Traceback" ++ newline ]};
     handler_file := "/tmp/reporting.log";
     now := py "2024-01-15 10:31:00.000";
     console := [] |}.

Definition tag_content : list (str * str) :=
  [ (py "Report_Title", py "Quarterly report") ].

(** * Properties *)

(** ** The regular expression matcher *)

Lemma first_some_Some {A B} (f : A -> option B) (l : list A) (y : B) :
  first_some f l = Some y -> exists x, x ∈ l /\ f x = Some y.
Proof.
  induction l as [|x l IH]; simpl; [done|].
  destruct (f x) as [y'|] eqn:E.
  - intros [= <-]. exists x. split; [left|done].
  - intros H. destruct (IH H) as (x' & Hin & Hx). exists x'. split; [by right|done].
Qed.

Lemma span_take (p : ascii -> bool) (s : str) (k : nat) :
  k <= span p s -> forallb p (take k s) = true /\ length (take k s) = k.
Proof.
  revert k. induction s as [|c s IH]; intros k; simpl.
  - intros Hk. assert (k = 0) as -> by lia. done.
  - destruct k as [|k]; [done|]. destruct (p c) eqn:E; [|lia].
    intros Hk. destruct (IH k) as [H1 H2]; [lia|].
    simpl. rewrite E, H1, H2. done.
Qed.

Lemma counts_bound (a : atom) (s : str) (k : nat) :
  k ∈ counts a s ->
  lo a <= k /\ k <= span (cls a) s /\ (forall h, hi a = Some h -> k <= h).
Proof.
  unfold counts. intros H.
  assert (k ∈ seq (lo a)
            (S (match hi a with
                | Some h => Nat.min h (span (cls a) s)
                | None => span (cls a) s
                end) - lo a)) as Hin.
  { destruct (greedy a); [|done].
    apply list_elem_of_In. apply in_rev. by apply list_elem_of_In. }
  apply elem_of_seq in Hin.
  destruct (hi a) as [h|]; (split; [lia|split; [lia|]]).
  - intros h' [= <-]. lia.
  - done.
Qed.

Lemma re_match_sound (re : list atom) (s : str) (ps : list str) :
  re_match re s = Some ps ->
  Forall2 piece_of re ps /\ exists rest, s = concat ps ++ rest.
Proof.
  revert s ps. induction re as [|a re IH]; intros s ps; simpl.
  - intros [= <-]. split; [constructor|by exists s].
  - intros H. apply first_some_Some in H as (k & Hk & H).
    destruct (re_match re (drop k s)) as [ps'|] eqn:E; [|done].
    injection H as <-.
    destruct (IH _ _ E) as (HF & rest & Hrest).
    apply counts_bound in Hk as (Hlo & Hspan & Hhi).
    destruct (span_take _ _ _ Hspan) as [Hall Hlen].
    split.
    + constructor; [|done]. unfold piece_of. rewrite Hlen. done.
    + exists rest. simpl. rewrite <- app_assoc, <- Hrest. by rewrite take_drop.
Qed.

Lemma search_sound (re : list atom) (s : str) (ps : list str) :
  search re s = Some ps ->
  exists pre rest, s = pre ++ rest /\ re_match re rest = Some ps.
Proof.
  induction s as [|c s IH]; simpl.
  - destruct (re_match re []) eqn:E; [|done]. intros [= <-]. by exists [], [].
  - destruct (re_match re (c :: s)) eqn:E.
    + intros [= <-]. by exists [], (c :: s).
    + intros H. destruct (IH H) as (pre & rest & -> & Hm).
      by exists (c :: pre), rest.
Qed.

Lemma search_None (re : list atom) (pre rest : str) :
  search re (pre ++ rest) = None -> re_match re rest = None.
Proof.
  induction pre as [|c pre IH]; simpl.
  - destruct rest; simpl; by destruct (re_match re _).
  - destruct (re_match re (c :: pre ++ rest)); [done|]. exact IH.
Qed.

Lemma search_match (re : list atom) (s : str) (ps : list str) :
  search re s = Some ps ->
  Forall2 piece_of re ps /\ exists pre post, s = pre ++ group ps ++ post.
Proof.
  intros H. apply search_sound in H as (pre & rest & -> & H).
  apply re_match_sound in H as (HF & post & ->).
  split; [done|]. by exists pre, post.
Qed.

(** *** Patterns of fixed length *)

Lemma counts_fixed (a : atom) (s : str) :
  fixed a ->
  counts a s = if lo a <=? span (cls a) s then [lo a] else [].
Proof.
  unfold fixed, counts. intros ->.
  destruct (Nat.leb_spec (lo a) (span (cls a) s)) as [H|H].
  - rewrite Nat.min_l by done.
    replace (S (lo a) - lo a) with 1 by lia. simpl. by destruct (greedy a).
  - rewrite Nat.min_r by lia.
    replace (S (span (cls a) s) - lo a) with 0 by lia. simpl.
    by destruct (greedy a).
Qed.

Lemma span_repeat (p : ascii -> bool) (n : nat) (s : str) :
  (n <=? span p s) = match_classes (repeat p n) s.
Proof.
  revert s. induction n as [|n IH]; intros s; simpl; [done|].
  destruct s as [|c s]; simpl; [done|].
  destruct (p c); simpl; [apply IH|done].
Qed.

Lemma match_classes_app (cs1 cs2 : list (ascii -> bool)) (s : str) :
  match_classes (cs1 ++ cs2) s
  = match_classes cs1 s && match_classes cs2 (drop (length cs1) s).
Proof.
  revert s. induction cs1 as [|p cs1 IH]; intros s; simpl; [done|].
  destruct s as [|c s]; simpl; [done|]. rewrite IH. by rewrite andb_assoc.
Qed.

Lemma re_match_fixed (re : list atom) (s : str) :
  Forall fixed re ->
  re_match re s
  = if match_classes (expand re) s then Some (chunks (map lo re) s) else None.
Proof.
  intros HF. revert s. induction HF as [|a re Ha HF IH]; intros s; simpl; [done|].
  rewrite counts_fixed by done. rewrite match_classes_app, <- span_repeat.
  rewrite repeat_length.
  destruct (lo a <=? span (cls a) s); simpl; [|done].
  rewrite IH. by destruct (match_classes (expand re) (drop (lo a) s)).
Qed.

Lemma match_classes_length (cs : list (ascii -> bool)) (s : str) :
  match_classes cs s = true -> length cs <= length s.
Proof.
  revert s. induction cs as [|p cs IH]; intros s; simpl; [lia|].
  destruct s as [|c s]; [done|]. simpl.
  intros [_ H]%andb_prop. apply IH in H. lia.
Qed.

Lemma match_classes_prefix (cs : list (ascii -> bool)) (s t : str) :
  length cs <= length s ->
  match_classes cs (s ++ t) = match_classes cs s.
Proof.
  revert s. induction cs as [|p cs IH]; intros s; simpl; [done|].
  destruct s as [|c s]; simpl; [lia|]. intros H. rewrite IH by lia. done.
Qed.

Lemma concat_chunks (ns : list nat) (s : str) :
  concat (chunks ns s) = take (sum_list ns) s.
Proof.
  revert s. induction ns as [|n ns IH]; intros s; simpl; [done|].
  rewrite IH. by rewrite take_take_drop.
Qed.

(** *** The time stamp pattern *)

Lemma TIMESTAMP_REGEX_fixed : Forall fixed TIMESTAMP_REGEX.
Proof. unfold TIMESTAMP_REGEX. repeat constructor. Qed.

Lemma timestamp_re_match (s : str) :
  re_match TIMESTAMP_REGEX s
  = if match_classes TIMESTAMP_CLASSES s
    then Some (chunks (map lo TIMESTAMP_REGEX) s) else None.
Proof. by rewrite (re_match_fixed _ _ TIMESTAMP_REGEX_fixed). Qed.

Lemma timestamp_shaped_prefix (s : str) :
  match_classes TIMESTAMP_CLASSES s = true ->
  timestamp_shaped (take 23 s).
Proof.
  intros H. pose proof (match_classes_length _ _ H) as Hlen.
  change (length TIMESTAMP_CLASSES) with 23 in Hlen.
  split.
  - rewrite length_take. lia.
  - rewrite <- (take_drop 23 s) in H.
    rewrite match_classes_prefix in H; [done|].
    rewrite length_take. change (length TIMESTAMP_CLASSES) with 23. lia.
Qed.

(** What [search] finds for [TIMESTAMP_REGEX] is a part of the line of the
    shape of a time stamp. *)
Lemma timestamp_match_shape (line : str) (m : list str) :
  search TIMESTAMP_REGEX line = Some m ->
  timestamp_shaped (group m)
  /\ exists pre post, line = pre ++ group m ++ post.
Proof.
  intros H. apply search_sound in H as (pre & rest & -> & H).
  rewrite timestamp_re_match in H.
  destruct (match_classes TIMESTAMP_CLASSES rest) eqn:E; [|done].
  assert (m = chunks (map lo TIMESTAMP_REGEX) rest) as -> by congruence.
  unfold group. rewrite concat_chunks.
  change (sum_list (map lo TIMESTAMP_REGEX)) with 23.
  split; [by apply timestamp_shaped_prefix|].
  exists pre, (drop 23 rest). by rewrite take_drop.
Qed.

(** [search] finds nothing exactly when no part of the line has that
    shape. *)
Lemma timestamp_search_None (line : str) :
  search TIMESTAMP_REGEX line = None
  <-> forall pre ts post, line = pre ++ ts ++ post -> ~ timestamp_shaped ts.
Proof.
  split.
  - intros H pre ts post -> [Hlen Hts].
    apply search_None in H. rewrite timestamp_re_match in H.
    rewrite match_classes_prefix, Hts in H; [done|].
    rewrite Hlen. change (length TIMESTAMP_CLASSES) with 23. lia.
  - intros H. destruct (search TIMESTAMP_REGEX line) as [m|] eqn:E; [|done].
    apply timestamp_match_shape in E as (Hs & pre & post & ->).
    by destruct (H _ _ _ eq_refl).
Qed.

Lemma timestamp_shaped_year (ts : str) :
  timestamp_shaped ts -> exists rest, ts = "2"%char :: rest.
Proof.
  intros [_ H]. destruct ts as [|c rest]; [done|].
  unfold TIMESTAMP_CLASSES in H. cbn [match_classes] in H.
  apply andb_prop in H as [H _]. unfold is_char in H.
  apply Ascii.eqb_eq in H as <-. by exists rest.
Qed.

(** ** [replace] with an empty replacement *)

Lemma startswith_app (old b : str) : startswith old (old ++ b) = true.
Proof.
  induction old as [|x old IH]; simpl; [done|].
  by rewrite Ascii.eqb_refl, IH.
Qed.

Lemma startswith_split (old s : str) :
  startswith old s = true -> s = old ++ drop (length old) s.
Proof.
  revert s. induction old as [|x old IH]; intros s; simpl; [done|].
  destruct s as [|c s]; [done|].
  intros [Hx Hs]%andb_prop. apply Ascii.eqb_eq in Hx as ->.
  simpl. f_equal. by apply IH.
Qed.

Lemma replace_from_skip (old new u t : str) :
  replace_from old new (length u) (u ++ t) = replace_from old new 0 t.
Proof.
  induction u as [|c u IH]; simpl; [|done].
  by destruct t.
Qed.

Lemma replace_from_occurrence (old new b : str) :
  old <> [] ->
  replace_from old new 0 (old ++ b) = new ++ replace_from old new 0 b.
Proof.
  destruct old as [|x old]; [done|]. intros _.
  change (replace_from (x :: old) new 0 ((x :: old) ++ b))
    with (if startswith (x :: old) ((x :: old) ++ b)
          then new ++ replace_from (x :: old) new (length (x :: old) - 1) (old ++ b)
          else x :: replace_from (x :: old) new 0 (old ++ b)).
  rewrite startswith_app. simpl length.
  replace (S (length old) - 1) with (length old) by lia.
  by rewrite replace_from_skip.
Qed.

Lemma replace_from_other (old new : str) (c : ascii) (s : str) :
  startswith old (c :: s) = false ->
  replace_from old new 0 (c :: s) = c :: replace_from old new 0 s.
Proof. intros H. simpl replace_from. by rewrite H. Qed.

Lemma removed_all_cons (old : str) (c : ascii) (s r : str) :
  startswith old (c :: s) = false ->
  removed_all old s r ->
  removed_all old (c :: s) (c :: r).
Proof.
  intros Hc H. destruct H as [s Hs|a b r Ha Hr].
  - apply removed_none. simpl contains. by rewrite Hc, Hs.
  - apply (removed_leftmost old (c :: a) b r); [|done].
    simpl. split; done.
Qed.

(** [replace old "" s] is [s] without the occurrences of [old], all of
    them. *)
Lemma replace_removed_all (old s : str) :
  old <> [] -> removed_all old s (replace old [] s).
Proof.
  intros Hold.
  assert (replace old [] s = replace_from old [] 0 s) as ->.
  { by destruct old. }
  remember (length s) as n eqn:Hn.
  revert s Hn. induction n as [n IH] using lt_wf_ind. intros s Hn.
  destruct s as [|c s].
  { apply removed_none. destruct old; [done|]. done. }
  destruct (startswith old (c :: s)) eqn:E.
  - apply startswith_split in E. rewrite E.
    rewrite replace_from_occurrence by done.
    apply (removed_leftmost old [] _ _); [done|].
    apply (IH (length (drop (length old) (c :: s)))); [|done].
    rewrite Hn, length_drop. destruct old; [done|]. simpl. lia.
  - rewrite replace_from_other by done.
    apply removed_all_cons; [done|].
    apply (IH (length s)); [|done]. rewrite Hn. simpl. lia.
Qed.

Lemma taken_out_remove_match (m text : str) :
  m <> [] -> taken_out m text (remove_match m text).
Proof.
  intros H. exists (replace m [] text). split; [|done].
  by apply replace_removed_all.
Qed.

(** ** The level and file patterns *)

Lemma piece_of_lit (c : ascii) (piece : str) :
  piece_of (lit c) piece -> piece = [c].
Proof.
  intros (Hlo & Hhi & Hall). simpl in *. specialize (Hhi 1 eq_refl).
  destruct piece as [|x [|y piece]]; simpl in *; [lia| |lia].
  rewrite andb_true_r in Hall. unfold is_char in Hall.
  by apply Ascii.eqb_eq in Hall as ->.
Qed.

Lemma filename_match_pieces (text : str) (mf : list str) :
  re_match FILENAME_LINE_NUMBER_REGEX text = Some mf ->
  exists inner,
    mf = [py "["; inner; py "]"]
    /\ inner <> []
    /\ forallb filename_char inner = true.
Proof.
  intros H. apply re_match_sound in H as [HF _].
  unfold FILENAME_LINE_NUMBER_REGEX in HF.
  apply Forall2_cons_inv_l in HF as (p1 & mf1 & H1 & HF & ->).
  apply Forall2_cons_inv_l in HF as (p2 & mf2 & H2 & HF & ->).
  apply Forall2_cons_inv_l in HF as (p3 & mf3 & H3 & HF & ->).
  apply Forall2_nil_inv_l in HF as ->.
  apply piece_of_lit in H1 as ->. apply piece_of_lit in H3 as ->.
  destruct H2 as (Hlo & _ & Hall). simpl in Hlo.
  exists p2. split; [done|]. split; [|done]. destruct p2; simpl in *; [lia|done].
Qed.

Lemma level_match_pieces (text : str) (ml : list str) :
  search LOG_LEVEL_REGEX text = Some ml ->
  exists lv, ml = [lv] /\ group ml = lv /\ 4 <= length lv
             /\ forallb is_upper lv = true.
Proof.
  intros H. apply search_match in H as [HF _].
  unfold LOG_LEVEL_REGEX in HF.
  apply Forall2_cons_inv_l in HF as (lv & ml' & Hlv & HF & ->).
  apply Forall2_nil_inv_l in HF as ->.
  destruct Hlv as (Hlo & _ & Hall). simpl in Hlo.
  exists lv. unfold group. simpl. rewrite app_nil_r. done.
Qed.

(** ** [split] and [int] *)

Lemma length_split (sep : ascii) (s : str) :
  length (split sep s) = S (count sep s).
Proof.
  induction s as [|c s IH]; simpl; [done|].
  destruct (Ascii.eqb c sep); simpl; [by rewrite IH|].
  destruct (split sep s); simpl in *; [done|lia].
Qed.

Lemma split_no_sep (sep : ascii) (s : str) :
  count sep s = 0 -> split sep s = [s].
Proof.
  induction s as [|c s IH]; simpl; [done|].
  destruct (Ascii.eqb c sep); simpl; [done|].
  intros H. by rewrite IH.
Qed.

Lemma split_first_spec (sep : ascii) (s : str) :
  0 < count sep s ->
  s = fst (split_first sep s) ++ sep :: snd (split_first sep s)
  /\ count sep (fst (split_first sep s)) = 0
  /\ split sep s = fst (split_first sep s) :: split sep (snd (split_first sep s)).
Proof.
  induction s as [|c s IH]; simpl; [lia|].
  destruct (Ascii.eqb c sep) eqn:E; simpl.
  - apply Ascii.eqb_eq in E as ->. done.
  - intros H. destruct (IH H) as (Hs & Hc & Hsp).
    destruct (split_first sep s) as [a b]. simpl in *.
    rewrite E, Hc, Hsp. split; [by rewrite <- Hs|done].
Qed.

Lemma literal_digits_colon (after_digit : bool) (s : str) :
  0 < count ":" s -> literal_digits after_digit s = None.
Proof.
  revert after_digit. induction s as [|c s IH]; intros after_digit; simpl; [lia|].
  destruct (Ascii.eqb c ":") eqn:E.
  - apply Ascii.eqb_eq in E as ->. done.
  - cbn [Nat.add]. intros H. destruct (is_digit c); [by rewrite IH|].
    destruct (is_char "_" c && after_digit); [by apply IH|done].
Qed.

Lemma int_colon (s : str) :
  0 < count ":" s -> int s = Raise (ValueError_int_literal s).
Proof. intros H. unfold int. by rewrite literal_digits_colon. Qed.

Lemma int_raises_ValueError (s : str) (e : exn) :
  int s = Raise e -> exn_class e = "ValueError".
Proof. unfold int. repeat case_match; by intros [= <-]. Qed.

(** On a token with a colon, the code gives what the words of the
    specification give whenever these give a result, and raises a
    [ValueError] whenever they do. *)
Lemma file_and_line_refines (inner : str) :
  0 < count ":" inner ->
  match file_and_line_of_spec inner with
  | Ret v => file_and_line_of_code inner = Ret v
  | Raise _ => raises (file_and_line_of_code inner) "ValueError"
  end.
Proof.
  intros H. destruct (split_first_spec ":" inner H) as (_ & _ & Hsp).
  unfold file_and_line_of_spec, file_and_line_of_code. rewrite Hsp.
  destruct (split_first ":" inner) as [file number]. simpl fst. simpl snd.
  destruct (Nat.eq_dec (count ":" number) 0) as [H0|H0].
  - rewrite split_no_sep by done. simpl.
    destruct number as [|c number]; simpl; [done|].
    destruct (int (c :: number)) as [n|e] eqn:En; simpl; [done|].
    exists e. split; [done|]. by apply int_raises_ValueError in En.
  - pose proof (length_split ":" number) as Hlen.
    pose proof (int_colon number) as Hint.
    destruct (split ":" number) as [|p1 [|p2 ps]]; simpl in Hlen; [lia|lia|].
    destruct number as [|c number]; [done|].
    rewrite Hint by lia. simpl. by eexists.
Qed.

(** ** The loop *)

Lemma scrape_lines_app (parsed : list entry) (xs ys : list str) :
  scrape_lines parsed (xs ++ ys)
  = let* parsed' := scrape_lines parsed xs in scrape_lines parsed' ys.
Proof.
  revert parsed. induction xs as [|x xs IH]; intros parsed; simpl; [done|].
  destruct (scrape_line parsed x) as [parsed'|e]; simpl; [apply IH|done].
Qed.

Lemma scrape_lines_raise (parsed : list entry) (line : str) (rest : list str) e :
  scrape_line parsed line = Raise e ->
  scrape_lines parsed (line :: rest) = Raise e.
Proof. intros H. simpl. by rewrite H. Qed.

Lemma insert_last (es : list entry) (e e' : entry) :
  <[length (es ++ [e]) - 1 := e']> (es ++ [e]) = es ++ [e'].
Proof.
  rewrite length_app. simpl.
  replace (length es + 1 - 1) with (length es + 0) by lia.
  by rewrite insert_app_r.
Qed.

Lemma scrape_line_continuation (es : list entry) (e : entry) (line : str) :
  search TIMESTAMP_REGEX line = None ->
  scrape_line (es ++ [e]) line = Ret (es ++ [traceback_append line e]).
Proof.
  intros H. unfold scrape_line. rewrite H, last_snoc. by rewrite insert_last.
Qed.

Lemma scrape_line_first_continuation (line : str) :
  search TIMESTAMP_REGEX line = None ->
  scrape_line [] line = Raise IndexError_list_index_out_of_range.
Proof. intros H. unfold scrape_line. by rewrite H. Qed.

(** ** The minimal line *)

(** C1. The single line
    ["2024-01-15 10:30:00.123 INFO [app.py:42] Started service"] gives exactly
    one entry: date 2024-01-15T10:30:00.123, level [INFO], file [app.py],
    line 42, content [Started service], no traceback. *)
Theorem scrape_log_minimal_line :
  scrape_log [py "2024-01-15 10:30:00.123 INFO [app.py:42] Started service"]
  = Ret [ {| log_date := Datetime 2024 1 15 10 30 0 123000;
             log_level := Some (py "INFO");
             log_filename := Some (py "app.py");
             log_line_number := 42;
             content := py "Started service";
             traceback := [] |} ].
Proof. vm_compute. reflexivity. Qed.

(** The same line as [readlines] gives it, with its line feed. *)
Example scrape_log_minimal_line_with_line_feed :
  scrape_log [line_minimal ++ newline] = Ret [entry_minimal].
Proof. vm_compute. reflexivity. Qed.

(** ** A continuation line with no entry before it *)

(** C2, as the code has it. When the first line has no time stamp,
    [scrape_log] raises the [IndexError] of [parsed_log_entries[-1]] on the
    empty list, whatever follows; no list of entries is returned. *)
Theorem first_line_continuation_raises_IndexError
  (line : str) (rest : list str) :
  search TIMESTAMP_REGEX line = None ->
  scrape_log (line :: rest) = Raise IndexError_list_index_out_of_range
  /\ raises (scrape_log (line :: rest)) "IndexError".
Proof.
  intros H.
  assert (scrape_log (line :: rest) = Raise IndexError_list_index_out_of_range)
    as E.
  { apply scrape_lines_raise, scrape_line_first_continuation, H. }
  split; [exact E|]. rewrite E. by eexists.
Qed.

Lemma first_line_continuation_witness :
  scrape_log [py "Traceback (most recent call last):"; py "  File x.py"]
  = Raise IndexError_list_index_out_of_range
  /\ raises (scrape_log [py "Traceback (most recent call last):";
                         py "  File x.py"]) "IndexError".
Proof.
  apply (first_line_continuation_raises_IndexError
           (py "Traceback (most recent call last):") [py "  File x.py"]).
  vm_compute. reflexivity.
Defined.

(** C2, as the specification has it, fails: for the first line
    ["Traceback (most recent call last):"] the exception is an [IndexError],
    not a [MalformedLogSequence]. *)
Lemma first_line_continuation_not_MalformedLogSequence :
  scrape_log [py "Traceback (most recent call last):"]
  = Raise IndexError_list_index_out_of_range
  /\ ~ raises (scrape_log [py "Traceback (most recent call last):"])
         "MalformedLogSequence".
Proof.
  split; [vm_compute; reflexivity|].
  intros (e & He & Hc). vm_compute in He. inversion He; subst e.
  discriminate Hc.
Qed.

(** ** Continuation lines after an entry *)

Lemma fromisoformat_raises_ValueError (s : str) (e : exn) :
  fromisoformat s = Raise e -> exn_class e = "ValueError".
Proof.
  unfold fromisoformat.
  do 23 (destruct s as [|? s]; [by intros [= <-]|]).
  destruct s; [|by intros [= <-]].
  repeat case_match; by intros [= <-].
Qed.

(** ** Lines that start an entry *)

Lemma line_number_value_raises (n : option str) (e : exn) :
  line_number_value n = Raise e -> exn_class e = "ValueError".
Proof.
  destruct n as [[|c n]|]; simpl; [done| |done].
  apply int_raises_ValueError.
Qed.

Lemma extract_filename_line_number_raises (c : str) (e : exn) :
  extract_filename_line_number c = Raise e -> exn_class e = "ValueError".
Proof.
  unfold extract_filename_line_number, unpack2.
  repeat case_match; simpl; by intros [= <-].
Qed.

(** A line with a time stamp either adds one entry, with an empty
    traceback, at the end of the list, or raises a [ValueError]. *)
Lemma scrape_line_new_entry (parsed : list entry) (line : str) (m : list str) :
  search TIMESTAMP_REGEX line = Some m ->
  (exists e, scrape_line parsed line = Ret (parsed ++ [e]) /\ traceback e = [])
  \/ raises (scrape_line parsed line) "ValueError".
Proof.
  intros H. unfold scrape_line. rewrite H.
  destruct (fromisoformat (group m)) as [d|err] eqn:Ed; simpl.
  2:{ right. exists err. split; [done|].
      by apply fromisoformat_raises_ValueError in Ed. }
  destruct (extract_level _) as [lv c2].
  destruct (extract_filename_line_number c2) as [[[f n] c3]|err] eqn:Ef; simpl.
  2:{ right. exists err. split; [done|].
      by apply extract_filename_line_number_raises in Ef. }
  destruct (line_number_value n) as [v|err] eqn:En; simpl.
  2:{ right. exists err. split; [done|].
      by apply line_number_value_raises in En. }
  left. by eexists.
Qed.

(** ** Continuation lines after an entry *)

(** The last entry of the output was started by the nearest line with a time
    stamp; the lines after that one are its traceback so far. *)
Lemma last_entry_origin (before : list str) (es : list entry) (e : entry) :
  scrape_log before = Ret (es ++ [e]) ->
  exists pre start conts e0,
    before = pre ++ start :: conts
    /\ search TIMESTAMP_REGEX start <> None
    /\ Forall (fun c => search TIMESTAMP_REGEX c = None) conts
    /\ scrape_log (pre ++ [start]) = Ret (es ++ [e0])
    /\ traceback e0 = []
    /\ e = traceback_extend conts e0.
Proof.
  unfold scrape_log. revert es e.
  induction before as [|x before IH] using rev_ind; intros es e H.
  { simpl in H. injection H as H. by destruct es. }
  pose proof H as Hall. rewrite scrape_lines_app in H.
  destruct (scrape_lines [] before) as [p|] eqn:Ep; [|done].
  simpl in H.
  destruct (scrape_line p x) as [res|] eqn:Ex; [|done].
  simpl in H. injection H as ->.
  destruct (search TIMESTAMP_REGEX x) as [m|] eqn:Es.
  - destruct (scrape_line_new_entry p x m Es) as [(e' & He' & Htb)|(err & He & _)];
      [|congruence].
    rewrite Ex in He'. injection He' as He'.
    apply app_inj_tail in He' as [-> ->].
    exists before, x, [], e'. rewrite Hall, Es. by repeat split.
  - unfold scrape_line in Ex. rewrite Es in Ex.
    destruct (last p) as [e1|] eqn:El; [|done].
    apply last_Some in El as [p' ->].
    rewrite insert_last in Ex. injection Ex as Ex.
    apply app_inj_tail in Ex as [-> <-].
    destruct (IH _ _ eq_refl) as (pre & start & conts & e0 & -> & Hs & Hc & Hr & Htb & ->).
    exists pre, start, (conts ++ [x]), e0.
    rewrite <- app_assoc. simpl. repeat split; try done.
    + apply Forall_app. split; [done|]. by constructor.
    + unfold traceback_extend. by rewrite fold_left_app.
Qed.

(** Appending lines one by one changes the traceback and nothing else. *)
Lemma traceback_extend_fields (conts : list str) (e : entry) :
  traceback_extend conts e
  = Entry (log_date e) (log_level e) (log_filename e) (log_line_number e)
          (content e) (traceback e ++ conts).
Proof.
  unfold traceback_extend. revert e.
  induction conts as [|c conts IH]; intros e; simpl.
  - destruct e. simpl. by rewrite app_nil_r.
  - rewrite IH. unfold traceback_append. simpl. by rewrite <- app_assoc.
Qed.

(** C3. A line with no time stamp that comes after at least one entry is
    appended to the traceback of the last entry of the output so far: that
    entry keeps its date, level, file, line number and content, and its
    traceback becomes the old one followed by the line. The entries before
    it are untouched and no entry is added; the lines after it are scraped
    from that list. That last entry is the one started by the nearest line
    before it that has a time stamp, and its traceback so far is the lines
    since that one. *)
Theorem continuation_appended_to_last_entry
  (before : list str) (line : str) (rest : list str)
  (es : list entry) (e : entry) :
  scrape_log before = Ret (es ++ [e]) ->
  search TIMESTAMP_REGEX line = None ->
  scrape_log (before ++ [line])
  = Ret (es ++ [Entry (log_date e) (log_level e) (log_filename e)
                      (log_line_number e) (content e)
                      (traceback e ++ [line])])
  /\ scrape_log (before ++ line :: rest)
     = scrape_lines
         (es ++ [Entry (log_date e) (log_level e) (log_filename e)
                       (log_line_number e) (content e)
                       (traceback e ++ [line])])
         rest
  /\ exists pre start conts e0,
       before = pre ++ start :: conts
       /\ search TIMESTAMP_REGEX start <> None
       /\ Forall (fun c => search TIMESTAMP_REGEX c = None) conts
       /\ scrape_log (pre ++ [start]) = Ret (es ++ [e0])
       /\ traceback e0 = []
       /\ e = Entry (log_date e0) (log_level e0) (log_filename e0)
                    (log_line_number e0) (content e0) conts.
Proof.
  intros Hb Hl. split; [|split].
  - unfold scrape_log in *. rewrite scrape_lines_app, Hb. simpl.
    by rewrite (scrape_line_continuation es e line Hl).
  - unfold scrape_log in *. rewrite scrape_lines_app, Hb. simpl.
    by rewrite (scrape_line_continuation es e line Hl).
  - destruct (last_entry_origin before es e Hb)
      as (pre & start & conts & e0 & -> & Hs & Hc & Hr & Htb & ->).
    exists pre, start, conts, e0. repeat split; try done.
    by rewrite traceback_extend_fields, Htb.
Qed.

(** ** A time stamp that is no date *)

(** C4, as the code has it. When the text matched by the time stamp pattern
    is refused by [datetime.fromisoformat], [scrape_log] raises the
    [ValueError] of that call; nothing is returned, so no entry for the line
    either. *)
Theorem unparseable_timestamp_raises_ValueError
  (before : list str) (line : str) (rest : list str)
  (parsed : list entry) (m : list str) (err : exn) :
  scrape_log before = Ret parsed ->
  search TIMESTAMP_REGEX line = Some m ->
  fromisoformat (group m) = Raise err ->
  scrape_log (before ++ line :: rest) = Raise err
  /\ exn_class err = "ValueError".
Proof.
  intros Hb Hs Hd. split; [|by apply fromisoformat_raises_ValueError in Hd].
  unfold scrape_log in *. rewrite scrape_lines_app, Hb. simpl.
  unfold scrape_line. by rewrite Hs, Hd.
Qed.

Lemma unparseable_timestamp_witness :
  scrape_log ([py "2024-01-15 10:30:00.123 INFO [app.py:42] Started service"]
              ++ py "2024-02-30 10:30:01.000 INFO [app.py:43] Next" :: [])
  = Raise (ValueError_fromisoformat Day_out_of_range_for_month)
  /\ exn_class (ValueError_fromisoformat Day_out_of_range_for_month)
     = "ValueError".
Proof.
  eapply (unparseable_timestamp_raises_ValueError
            [py "2024-01-15 10:30:00.123 INFO [app.py:42] Started service"]
            (py "2024-02-30 10:30:01.000 INFO [app.py:43] Next") []).
  - vm_compute. reflexivity.
  - vm_compute. reflexivity.
  - vm_compute. reflexivity.
Defined.

(** C4, as the specification has it, fails: for a line with month 13 the
    exception is the [ValueError] of the date constructor, which does not
    carry the text of the time stamp; it is not a [TimestampParseError]. *)
Lemma month_13_not_TimestampParseError :
  scrape_log [py "2024-13-15 10:30:00.123 INFO [app.py:42] Started service"]
  = Raise (ValueError_fromisoformat Month_must_be_in_1_12)
  /\ ~ raises
        (scrape_log
           [py "2024-13-15 10:30:00.123 INFO [app.py:42] Started service"])
        "TimestampParseError".
Proof.
  split; [vm_compute; reflexivity|].
  intros (e & He & Hc). vm_compute in He. inversion He; subst e.
  discriminate Hc.
Qed.

(** ** The gate between a new entry and a continuation *)

(** C7, as the code has it. Whether a line starts an entry is decided by
    the search for the time stamp pattern alone. When the search finds a
    text, it is a part of the line of the shape [2ddd-dd-dd dd:dd:dd?ddd],
    its year starting with 2, and the line adds an entry or raises a
    [ValueError]; when no part of the line has that shape, the line is
    appended to the traceback of the last entry, or raises with no entry. A
    stamp of the year 1999 has not that shape: its line is a continuation. *)
Theorem timestamp_search_is_the_gate (parsed : list entry) (line : str) :
  match search TIMESTAMP_REGEX line with
  | Some m =>
      timestamp_shaped (group m)
      /\ (exists rest, group m = "2"%char :: rest)
      /\ (exists pre post, line = pre ++ group m ++ post)
      /\ ((exists e, scrape_line parsed line = Ret (parsed ++ [e])
                     /\ traceback e = [])
          \/ raises (scrape_line parsed line) "ValueError")
  | None =>
      (forall pre ts post, line = pre ++ ts ++ post -> ~ timestamp_shaped ts)
      /\ scrape_line parsed line
         = match last parsed with
           | Some e => Ret (<[length parsed - 1 := traceback_append line e]>
                              parsed)
           | None => Raise IndexError_list_index_out_of_range
           end
  end
  /\ scrape_log
       [py "2024-01-15 10:30:00.123 INFO [app.py:42] Started service";
        py "1999-01-15 10:30:00.123 INFO [app.py:43] Old"]
     = Ret [ {| log_date := Datetime 2024 1 15 10 30 0 123000;
                log_level := Some (py "INFO");
                log_filename := Some (py "app.py");
                log_line_number := 42;
                content := py "Started service";
                traceback :=
                  [py "1999-01-15 10:30:00.123 INFO [app.py:43] Old"] |} ].
Proof.
  split; [|vm_compute; reflexivity].
  destruct (search TIMESTAMP_REGEX line) as [m|] eqn:E.
  - destruct (timestamp_match_shape _ _ E) as (Hs & Hsub).
    repeat split; [apply Hs|apply Hs| | |].
    + by apply timestamp_shaped_year.
    + done.
    + by apply (scrape_line_new_entry parsed line m).
  - split; [by apply timestamp_search_None|].
    unfold scrape_line. by rewrite E.
Qed.

(** C7, as the specification has it, fails: a line with the well-formed
    stamp ["1999-01-15 10:30:00.123"] has no match and, alone, is taken for a
    continuation with no entry before it. *)
Lemma year_1999_is_a_continuation :
  search TIMESTAMP_REGEX (py "1999-01-15 10:30:00.123 INFO [app.py:42] Old")
  = None
  /\ scrape_log [py "1999-01-15 10:30:00.123 INFO [app.py:42] Old"]
     = Raise IndexError_list_index_out_of_range.
Proof. split; vm_compute; reflexivity. Qed.

(** ** The three extraction steps *)

(** The body of the loop for a line with a time stamp that is a date, after
    the level has been taken out. *)
Lemma scrape_line_after_level
  (parsed : list entry) (line : str) (m : list str) (d : datetime)
  (lv : option str) (c2 : str) :
  search TIMESTAMP_REGEX line = Some m ->
  fromisoformat (group m) = Ret d ->
  extract_level (remove_match (group m) line) = (lv, c2) ->
  scrape_line parsed line
  = let* r := extract_filename_line_number c2 in
    let* n := line_number_value (snd (fst r)) in
    Ret (parsed ++ [Entry d lv (fst (fst r)) n (snd r) []]).
Proof.
  intros Hs Hd Hl. unfold scrape_line. rewrite Hs, Hd. simpl. rewrite Hl.
  destruct (extract_filename_line_number c2) as [[[f n] c3]|]; reflexivity.
Qed.

Lemma scrape_line_with_file
  (parsed : list entry) (line : str) (m : list str) (d : datetime)
  (lv : option str) (c2 : str) (mf : list str) :
  search TIMESTAMP_REGEX line = Some m ->
  fromisoformat (group m) = Ret d ->
  extract_level (remove_match (group m) line) = (lv, c2) ->
  re_match FILENAME_LINE_NUMBER_REGEX c2 = Some mf ->
  scrape_line parsed line
  = let* fl := file_and_line_of_code (group1 mf) in
    Ret (parsed
           ++ [Entry d lv (Some (fst fl)) (snd fl)
                     (remove_match (group mf) c2) []]).
Proof.
  intros Hs Hd Hl Hm. rewrite (scrape_line_after_level _ _ _ _ _ _ Hs Hd Hl).
  unfold extract_filename_line_number, file_and_line_of_code. rewrite Hm.
  destruct (unpack2 (split ":" (group1 mf))) as [[f n]|]; [|reflexivity].
  cbn [bind fst snd]. destruct (line_number_value (Some n)); reflexivity.
Qed.

(** Each extraction step as the code has it. For a line with a time stamp, each extraction
    step takes every occurrence of the text it matched out of the working
    text, the later ones as well as the leftmost, and strips the result,
    before the next step runs; what the last step leaves is the content. *)
Theorem extraction_removes_every_occurrence
  (parsed : list entry) (line : str) (m : list str) (res : list entry) :
  search TIMESTAMP_REGEX line = Some m ->
  scrape_line parsed line = Ret res ->
  exists e c1 c2,
    res = parsed ++ [e]
    /\ taken_out (group m) line c1
    /\ match log_level e with
       | Some lv => search LOG_LEVEL_REGEX c1 = Some [lv] /\ taken_out lv c1 c2
       | None => search LOG_LEVEL_REGEX c1 = None /\ c2 = c1
       end
    /\ match log_filename e with
       | Some file =>
           exists number,
             re_match FILENAME_LINE_NUMBER_REGEX c2
             = Some [py "["; file ++ py ":" ++ number; py "]"]
             /\ taken_out (py "[" ++ file ++ py ":" ++ number ++ py "]") c2
                          (content e)
       | None =>
           re_match FILENAME_LINE_NUMBER_REGEX c2 = None /\ content e = c2
       end.
Proof.
  intros Hs Hr.
  destruct (fromisoformat (group m)) as [d|err] eqn:Hd.
  2:{ unfold scrape_line in Hr. by rewrite Hs, Hd in Hr. }
  destruct (extract_level (remove_match (group m) line)) as [lv c2] eqn:Hl.
  rewrite (scrape_line_after_level _ _ _ _ _ _ Hs Hd Hl) in Hr.
  destruct (extract_filename_line_number c2) as [[[f n] c3]|] eqn:Hf; [|done].
  simpl in Hr. destruct (line_number_value n) as [v|] eqn:Hn; [|done].
  simpl in Hr. injection Hr as <-.
  exists (Entry d lv f v c3 []), (remove_match (group m) line), c2.
  split; [done|]. split; [|split]; cbn [log_level log_filename content].
  - apply taken_out_remove_match.
    destruct (timestamp_match_shape _ _ Hs) as [[Hlen _] _].
    by destruct (group m).
  - unfold extract_level in Hl.
    destruct (search LOG_LEVEL_REGEX _) as [ml|] eqn:El.
    + destruct (level_match_pieces _ _ El) as (l & -> & Hg & Hlen & _).
      rewrite Hg in Hl. injection Hl as <- <-. split; [done|].
      apply taken_out_remove_match. intros ->. simpl in Hlen. lia.
    + by injection Hl as <- <-.
  - unfold extract_filename_line_number in Hf.
    destruct (re_match FILENAME_LINE_NUMBER_REGEX c2) as [mf|] eqn:Em.
    + destruct (filename_match_pieces _ _ Em) as (inner & -> & _ & _).
      unfold group1 in Hf. simpl nth in Hf.
      destruct (split ":" inner) as [|a [|b [|x xs]]] eqn:Esp; try done.
      simpl in Hf. injection Hf as <- <- <-.
      assert (inner = a ++ py ":" ++ b) as ->.
      { assert (0 < count ":" inner) as Hc.
        { pose proof (length_split ":" inner) as Hlen. rewrite Esp in Hlen.
          simpl in Hlen. lia. }
        destruct (split_first_spec ":" inner Hc) as (Hi & _ & Hsp).
        rewrite Esp in Hsp. injection Hsp as Ha Hb.
        pose proof (length_split ":" (snd (split_first ":" inner))) as Hlen.
        rewrite <- Hb in Hlen. simpl in Hlen.
        rewrite split_no_sep in Hb by lia. injection Hb as Hb.
        rewrite Hi at 1. by rewrite <- Ha, <- Hb. }
      exists b. split; [done|].
      replace (py "[" ++ a ++ py ":" ++ b ++ py "]")
        with (group [py "["; a ++ py ":" ++ b; py "]"]).
      * by apply taken_out_remove_match.
      * unfold group. simpl. f_equal. by rewrite <- app_assoc.
    + by injection Hf as <- <- <-.
Qed.

Lemma extraction_removes_every_occurrence_witness :
  exists e c1 c2,
    [ Entry date_minimal (Some (py "INFO")) (Some (py "app.py")) 42
            (py "again") [] ] = [] ++ [e]
    /\ taken_out (group (found TIMESTAMP_REGEX line_repeated_level))
                 line_repeated_level c1
    /\ match log_level e with
       | Some lv => search LOG_LEVEL_REGEX c1 = Some [lv] /\ taken_out lv c1 c2
       | None => search LOG_LEVEL_REGEX c1 = None /\ c2 = c1
       end
    /\ match log_filename e with
       | Some file =>
           exists number,
             re_match FILENAME_LINE_NUMBER_REGEX c2
             = Some [py "["; file ++ py ":" ++ number; py "]"]
             /\ taken_out (py "[" ++ file ++ py ":" ++ number ++ py "]") c2
                          (content e)
       | None =>
           re_match FILENAME_LINE_NUMBER_REGEX c2 = None /\ content e = c2
       end.
Proof.
  apply (extraction_removes_every_occurrence
           [] line_repeated_level (found TIMESTAMP_REGEX line_repeated_level)).
  - vm_compute. reflexivity.
  - vm_compute. reflexivity.
Defined.

(** C5 fails on the code. In
    ["2024-01-15 10:30:00.123 INFO [app.py:42] INFO again"] the level token
    comes twice. The search for the level finds the leftmost one, as the
    claim says, but [replace] is called without a count and takes the second
    one out of the message too: the content is ["again"], where the removal
    of the leftmost match alone leaves ["INFO again"]. *)
Theorem repeated_level_token_is_lost :
  scrape_log [line_repeated_level]
  = Ret [ Entry date_minimal (Some (py "INFO")) (Some (py "app.py")) 42
                (py "again") [] ]
  /\ remove_match (group (found TIMESTAMP_REGEX line_repeated_level))
                  line_repeated_level
     = py "INFO [app.py:42] INFO again"
  /\ search LOG_LEVEL_REGEX (py "INFO [app.py:42] INFO again")
     = Some [py "INFO"]
  /\ remove_match (py "INFO") (py "INFO [app.py:42] INFO again")
     = py "[app.py:42]  again"
  /\ remove_match_of_spec (py "INFO") (py "INFO [app.py:42] INFO again")
     = py "[app.py:42] INFO again"
  /\ remove_match_of_spec (py "[app.py:42]") (py "[app.py:42] INFO again")
     = py "INFO again"
  /\ remove_match (py "[app.py:42]") (py "[app.py:42]  again")
     = py "again".
Proof. repeat split; vm_compute; reflexivity. Qed.

(** ** File and line *)

(** C6. When the text left after the level starts with a bracketed token
    that has a colon, the file name of the entry is the text before the
    first colon and the line number is the integer the rest stands for, 0
    when the rest is empty. When the rest is no integer (it has a colon, or
    other characters that are no digits) no entry is made: a [ValueError] is
    raised. *)
Theorem file_and_line_split_at_first_colon
  (parsed : list entry) (line : str) (m : list str) (d : datetime)
  (lv : option str) (c2 : str) (mf : list str) :
  search TIMESTAMP_REGEX line = Some m ->
  fromisoformat (group m) = Ret d ->
  extract_level (remove_match (group m) line) = (lv, c2) ->
  re_match FILENAME_LINE_NUMBER_REGEX c2 = Some mf ->
  0 < count ":" (group1 mf) ->
  exists file number,
    split_first ":" (group1 mf) = (file, number)
    /\ group1 mf = file ++ py ":" ++ number
    /\ count ":" file = 0
    /\ match (match number with [] => Ret 0%Z | _ :: _ => int number end) with
       | Ret n =>
           scrape_line parsed line
           = Ret (parsed ++ [Entry d lv (Some file) n
                                   (remove_match (group mf) c2) []])
       | Raise _ => raises (scrape_line parsed line) "ValueError"
       end.
Proof.
  intros Hs Hd Hl Hm Hc.
  rewrite (scrape_line_with_file _ _ _ _ _ _ _ Hs Hd Hl Hm).
  pose proof (file_and_line_refines _ Hc) as Hr.
  destruct (split_first_spec ":" _ Hc) as (Hi & Hf & _).
  unfold file_and_line_of_spec in Hr.
  destruct (split_first ":" (group1 mf)) as [file number].
  exists file, number. split; [done|]. split; [done|]. split; [done|].
  destruct (match number with [] => Ret 0%Z | _ :: _ => int number end)
    as [n|err]; simpl in Hr.
  - by rewrite Hr.
  - destruct Hr as (e & -> & He). by exists e.
Qed.

Lemma file_and_line_split_witness :
  exists file number,
    split_first ":" (group1 [py "["; py "app.py:42"; py "]"]) = (file, number)
    /\ group1 [py "["; py "app.py:42"; py "]"] = file ++ py ":" ++ number
    /\ count ":" file = 0
    /\ match (match number with [] => Ret 0%Z | _ :: _ => int number end) with
       | Ret n =>
           scrape_line [] line_minimal
           = Ret ([] ++ [Entry date_minimal (Some (py "INFO")) (Some file) n
                               (remove_match
                                  (group [py "["; py "app.py:42"; py "]"])
                                  (py "[app.py:42] Started service")) []])
       | Raise _ => raises (scrape_line [] line_minimal) "ValueError"
       end.
Proof.
  apply (file_and_line_split_at_first_colon
           [] line_minimal (found TIMESTAMP_REGEX line_minimal)).
  - vm_compute. reflexivity.
  - vm_compute. reflexivity.
  - vm_compute. reflexivity.
  - vm_compute. reflexivity.
  - vm_compute. lia.
Defined.

Lemma unpack2_raises (l : list str) :
  length l <> 2 -> unpack2 l = Raise (ValueError_unpack 2 (length l)).
Proof. by destruct l as [|a [|b [|c l]]]. Qed.

(** C9. When the text left after time stamp and level starts with a
    bracketed token of the file pattern whose number of colons is not one,
    [scrape_log] raises the [ValueError] of the unpacking of the pieces of
    the split, one more than there are colons, into two names; nothing is
    returned. *)
Theorem bracket_token_without_one_colon_raises
  (before : list str) (line : str) (rest : list str) (parsed : list entry)
  (m : list str) (d : datetime) (lv : option str) (c2 : str) (mf : list str) :
  scrape_log before = Ret parsed ->
  search TIMESTAMP_REGEX line = Some m ->
  fromisoformat (group m) = Ret d ->
  extract_level (remove_match (group m) line) = (lv, c2) ->
  re_match FILENAME_LINE_NUMBER_REGEX c2 = Some mf ->
  count ":" (group1 mf) <> 1 ->
  scrape_log (before ++ line :: rest)
  = Raise (ValueError_unpack 2 (S (count ":" (group1 mf))))
  /\ raises (scrape_log (before ++ line :: rest)) "ValueError".
Proof.
  intros Hb Hs Hd Hl Hm Hc.
  assert (scrape_log (before ++ line :: rest)
          = Raise (ValueError_unpack 2 (S (count ":" (group1 mf))))) as E.
  { unfold scrape_log in *. rewrite scrape_lines_app, Hb. simpl.
    rewrite (scrape_line_with_file _ _ _ _ _ _ _ Hs Hd Hl Hm).
    unfold file_and_line_of_code. rewrite unpack2_raises.
    - by rewrite length_split.
    - rewrite length_split. lia. }
  split; [done|]. rewrite E. by eexists.
Qed.

Lemma bracket_token_no_colon_witness :
  scrape_log ([line_minimal] ++ line_no_colon :: [])
  = Raise (ValueError_unpack 2
             (S (count ":" (group1 [py "["; py "appfile"; py "]"]))))
  /\ raises (scrape_log ([line_minimal] ++ line_no_colon :: [])) "ValueError".
Proof.
  apply (bracket_token_without_one_colon_raises
           [line_minimal] line_no_colon [] [entry_minimal]
           (found TIMESTAMP_REGEX line_no_colon) date_minimal
           (Some (py "INFO")) (py "[appfile] Started service")).
  - vm_compute. reflexivity.
  - vm_compute. reflexivity.
  - vm_compute. reflexivity.
  - vm_compute. reflexivity.
  - vm_compute. reflexivity.
  - vm_compute. lia.
Defined.

Example bracket_token_two_colons :
  scrape_log [line_two_colons] = Raise (ValueError_unpack 2 3).
Proof. vm_compute. reflexivity. Qed.

Lemma continuation_appended_witness :
  scrape_log ([line_minimal; py "Traceback (most recent call last):"]
              ++ [py "  File x.py, line 1"])
  = Ret ([] ++ [Entry date_minimal (Some (py "INFO")) (Some (py "app.py")) 42
                      (py "Started service")
                      ([py "Traceback (most recent call last):"]
                       ++ [py "  File x.py, line 1"])])
  /\ scrape_log ([line_minimal; py "Traceback (most recent call last):"]
                 ++ py "  File x.py, line 1" :: [line_minimal])
     = scrape_lines
         ([] ++ [Entry date_minimal (Some (py "INFO")) (Some (py "app.py")) 42
                       (py "Started service")
                       ([py "Traceback (most recent call last):"]
                        ++ [py "  File x.py, line 1"])])
         [line_minimal]
  /\ exists pre start conts e0,
       [line_minimal; py "Traceback (most recent call last):"]
       = pre ++ start :: conts
       /\ search TIMESTAMP_REGEX start <> None
       /\ Forall (fun c => search TIMESTAMP_REGEX c = None) conts
       /\ scrape_log (pre ++ [start]) = Ret ([] ++ [e0])
       /\ traceback e0 = []
       /\ Entry date_minimal (Some (py "INFO")) (Some (py "app.py")) 42
                (py "Started service")
                [py "Traceback (most recent call last):"]
          = Entry (log_date e0) (log_level e0) (log_filename e0)
                  (log_line_number e0) (content e0) conts.
Proof.
  apply (continuation_appended_to_last_entry
           [line_minimal; py "Traceback (most recent call last):"]
           (py "  File x.py, line 1") [line_minimal] []
           (Entry date_minimal (Some (py "INFO")) (Some (py "app.py")) 42
                  (py "Started service")
                  [py "Traceback (most recent call last):"])).
  - vm_compute. reflexivity.
  - vm_compute. reflexivity.
Defined.

(** ** The tag resolver *)

Lemma log_function_call_raises :
  log_function_call = Raise (AttributeError "function_call").
Proof. vm_compute. reflexivity. Qed.

(** C8 fails on the code. With the files of the repository [process_tag]
    raises the [AttributeError] of [log.function_call()], its first
    statement, for every tag with no marker, and so does
    [get_data_from_tag]: nothing is looked up. Whatever that statement does,
    the result for such a tag is its exception or the object passed as
    [data], whole: never the content mapped to the tag, and no tag is
    reported as missing. *)
Theorem process_tag_without_marker_never_looks_up
  {Data : Type} (depth iterations : nat) (tag : str) (data : Data) :
  search tag_pattern tag = None ->
  process_tag log_function_call (S depth) iterations tag data
  = Some (Raise (AttributeError "function_call"))
  /\ get_data_from_tag log_function_call tag data
     = Raise (AttributeError "function_call")
  /\ forall function_call : result unit,
       process_tag function_call (S depth) iterations tag data
       = Some (let* _ := function_call in Ret (Object data)).
Proof.
  intros H. split; [|split].
  - cbn [process_tag]. by rewrite log_function_call_raises.
  - unfold get_data_from_tag. by rewrite log_function_call_raises.
  - intros [[]|e]; cbn [process_tag bind]; [|done]. by rewrite H.
Qed.

Lemma process_tag_without_marker_witness :
  process_tag log_function_call 1 0 (py "Report_Title") tag_content
  = Some (Raise (AttributeError "function_call"))
  /\ get_data_from_tag log_function_call (py "Report_Title") tag_content
     = Raise (AttributeError "function_call")
  /\ forall function_call : result unit,
       process_tag function_call 1 0 (py "Report_Title") tag_content
       = Some (let* _ := function_call in Ret (Object tag_content)).
Proof.
  apply (process_tag_without_marker_never_looks_up 0 0 (py "Report_Title")).
  vm_compute. reflexivity.
Defined.

(** A tag the mapping does not have: the same outcomes. *)
Example process_tag_missing_tag :
  process_tag log_function_call 1 0 (py "No_Such_Tag") tag_content
  = Some (Raise (AttributeError "function_call"))
  /\ process_tag (Ret tt) 1 0 (py "No_Such_Tag") tag_content
     = Some (Ret (Object tag_content)).
Proof. split; vm_compute; reflexivity. Qed.

(** ** [delete_log] *)

Lemma rename_other (src dst p : string) (fs : gmap string str) :
  p <> src -> p <> dst -> rename src dst fs !! p = fs !! p.
Proof.
  intros Hs Hd. unfold rename. destruct (fs !! src); [|done].
  rewrite lookup_insert_ne by done. by rewrite lookup_delete_ne.
Qed.

Lemma doRollover_other (base p : string) (fs : gmap string str) :
  p <> base ->
  (forall i, 1 <= i <= backupCount -> p <> backup base i) ->
  doRollover base fs !! p = fs !! p.
Proof.
  intros Hb Hi. unfold doRollover.
  rewrite rename_other; [|done|apply Hi; unfold backupCount; lia].
  assert (forall l fs',
            Forall (fun i => 1 <= i < backupCount) l ->
            fold_left (fun fs i => rename (backup base i) (backup base (S i)) fs)
                      l fs' !! p = fs' !! p) as Hfold.
  { induction l as [|i l IH]; intros fs' Hl; simpl; [done|].
    apply Forall_cons in Hl as [Hi1 Hl]. rewrite IH by done.
    apply rename_other; apply Hi; lia. }
  apply Hfold. unfold backupCount. simpl. repeat constructor; lia.
Qed.

Lemma not_handler_file (w : world) (p : string) :
  p ∉ handler_files w ->
  p <> handler_file w
  /\ forall i, 1 <= i <= backupCount -> p <> backup (handler_file w) i.
Proof.
  unfold handler_files. intros H. split.
  - intros ->. apply H. by left.
  - intros i Hi ->. apply H. right.
    apply list_elem_of_In, in_map, in_seq. lia.
Qed.

Lemma file_handler_emit_other (line : str) (w : world) (p : string) :
  p ∉ handler_files w ->
  files (file_handler_emit line w) !! p = files w !! p.
Proof.
  intros H. apply not_handler_file in H as [Hb Hi].
  unfold file_handler_emit. simpl.
  rewrite lookup_insert_ne by done.
  destruct (_ <=? _)%Z; [|done]. by apply doRollover_other.
Qed.

Lemma logger_log_other (levelname lineno : string) (msg : str) (w : world)
  (p : string) :
  p ∉ handler_files w ->
  files (logger_log levelname lineno msg w) !! p = files w !! p
  /\ handler_file (logger_log levelname lineno msg w) = handler_file w.
Proof.
  intros H. unfold logger_log. simpl. split; [|done].
  by apply file_handler_emit_other.
Qed.

(** The handler's own file after a record: the record comes after what the
    file held, or first in a new file when the old one had reached
    [maxBytes] and was rotated away. *)
Lemma append_empty (base s : string) : base +:+ s = base -> s = "".
Proof.
  induction base as [|c base IH]; simpl; [done|].
  intros [= H]. by apply IH.
Qed.

Lemma backup_ne (base : string) (i : nat) : backup base i <> base.
Proof. unfold backup. intros H. by apply append_empty in H. Qed.

Lemma rename_source (src dst : string) (fs : gmap string str) :
  src <> dst -> rename src dst fs !! src = None.
Proof.
  intros H. unfold rename. destruct (fs !! src) eqn:E; [|done].
  rewrite lookup_insert_ne by done. apply lookup_delete_eq.
Qed.

Lemma doRollover_base (base : string) (fs : gmap string str) :
  doRollover base fs !! base = None.
Proof. unfold doRollover. apply rename_source, not_eq_sym, backup_ne. Qed.

Lemma file_handler_emit_own (line : str) (w : world) :
  files (file_handler_emit line w) !! handler_file w
  = Some ((if (maxBytes
               <=? Z.of_nat (length (default [] (files w !! handler_file w))))%Z
           then [] else default [] (files w !! handler_file w))
          ++ line ++ newline).
Proof.
  unfold file_handler_emit. cbn [files]. rewrite lookup_insert_eq.
  destruct (_ <=? _)%Z; [|done]. by rewrite doRollover_base.
Qed.

Lemma logger_log_own (levelname lineno : string) (msg : str) (w : world) :
  files (logger_log levelname lineno msg w) !! handler_file w
  = Some ((if (maxBytes
               <=? Z.of_nat (length (default [] (files w !! handler_file w))))%Z
           then [] else default [] (files w !! handler_file w))
          ++ format (now w) levelname lineno msg ++ newline)
  /\ handler_file (logger_log levelname lineno msg w) = handler_file w
  /\ now (logger_log levelname lineno msg w) = now w.
Proof.
  unfold logger_log, console_handler_emit. cbn [files handler_file now].
  by rewrite file_handler_emit_own.
Qed.

(** C10, as the code has it. [delete_log] leaves every file that is not
    one of the files of the module's own log handler as it was, present or
    absent, content included. An instance with [log_file_path] loses that
    attribute and nothing else, and the call returns; an instance without it
    is left as it was and the call raises the [AttributeError] of [del]. The
    handler's own file does change: the record of line 194 is written to
    it, and then the record of line 197 when the attribute was there, each
    after what the file holds, or first in a new file when the file had
    reached [maxBytes]. *)
Theorem delete_log_leaves_other_files (self : LogScraper) (w : world)
  (p : string) :
  p ∉ handler_files w ->
  files (snd (delete_log self w)) !! p = files w !! p
  /\ match attributes self !! "log_file_path" with
     | Some _ =>
         fst (fst (delete_log self w)) = Ret tt
         /\ attributes (snd (fst (delete_log self w)))
            = delete "log_file_path" (attributes self)
     | None =>
         fst (fst (delete_log self w))
         = Raise (AttributeError "log_file_path")
         /\ snd (fst (delete_log self w)) = self
     end
  /\ files (snd (delete_log self w)) !! handler_file w
     = Some
         (let old := default [] (files w !! handler_file w) in
          let after_194 :=
            (if (maxBytes <=? Z.of_nat (length old))%Z then [] else old)
            ++ format (now w) "INFO" "194" (py "Calling delete_log")
            ++ newline in
          match attributes self !! "log_file_path" with
          | Some _ =>
              (if (maxBytes <=? Z.of_nat (length after_194))%Z
               then [] else after_194)
              ++ format (now w) "INFO" "197" (py "Log deleted.") ++ newline
          | None => after_194
          end).
Proof.
  intros H. unfold delete_log.
  destruct (logger_log_other "INFO" "194" (py "Calling delete_log") w p H)
    as [H1 Hh].
  destruct (logger_log_own "INFO" "194" (py "Calling delete_log") w)
    as (Hf1 & _ & Hn1).
  destruct (attributes self !! "log_file_path") as [path|] eqn:E;
    cbn [fst snd attributes].
  - destruct (logger_log_other "INFO" "197" (py "Log deleted.")
                (logger_log "INFO" "194" (py "Calling delete_log") w) p)
      as [H2 _].
    { unfold handler_files in *. by rewrite Hh. }
    destruct (logger_log_own "INFO" "197" (py "Log deleted.")
                (logger_log "INFO" "194" (py "Calling delete_log") w))
      as (Hf2 & _ & _).
    rewrite Hh, Hn1, Hf1 in Hf2. cbn [default from_option] in Hf2.
    rewrite H2, H1. repeat split; try done.
  - rewrite H1. repeat split; try done.
Qed.

Lemma delete_log_other_log_witness :
  files (snd (delete_log scraper_other_log world_own_log)) !! "/var/log/app.log"
  = files world_own_log !! "/var/log/app.log"
  /\ (fst (fst (delete_log scraper_other_log world_own_log)) = Ret tt
      /\ attributes (snd (fst (delete_log scraper_other_log world_own_log)))
         = delete "log_file_path" (attributes scraper_other_log))
  /\ files (snd (delete_log scraper_other_log world_own_log))
       !! "/tmp/reporting.log"
     = Some (line_minimal ++ newline
             ++ py "2024-01-15 10:31:00.000 INFO [logger.py:194] Calling delete_log"
             ++ newline
             ++ py "2024-01-15 10:31:00.000 INFO [logger.py:197] Log deleted."
             ++ newline).
Proof.
  apply (delete_log_leaves_other_files scraper_other_log world_own_log
           "/var/log/app.log").
  vm_compute. intros H.
  repeat (apply elem_of_cons in H as [H|H]; [discriminate H|]).
  by apply elem_of_nil in H.
Defined.

(** An instance without the attribute: the exception, and the first record
    alone in the handler's file. *)
Example delete_log_without_attribute :
  fst (fst (delete_log {| attributes := ∅ |} world_own_log))
  = Raise (AttributeError "log_file_path")
  /\ files (snd (delete_log {| attributes := ∅ |} world_own_log))
       !! "/tmp/reporting.log"
     = Some (line_minimal ++ newline
             ++ py "2024-01-15 10:31:00.000 INFO [logger.py:194] Calling delete_log"
             ++ newline).
Proof. split; vm_compute; reflexivity. Qed.

(** C10, as it is stated, fails: for a scraper of the log file the module
    writes to, [delete_log] adds its two messages to that file. *)
Lemma delete_log_writes_own_log :
  attributes scraper_own_log !! "log_file_path" = Some "/tmp/reporting.log"
  /\ files world_own_log !! "/tmp/reporting.log"
     = Some (line_minimal ++ newline)
  /\ files (snd (delete_log scraper_own_log world_own_log))
       !! "/tmp/reporting.log"
     = Some (line_minimal ++ newline
             ++ py "2024-01-15 10:31:00.000 INFO [logger.py:194] Calling delete_log"
             ++ newline
             ++ py "2024-01-15 10:31:00.000 INFO [logger.py:197] Log deleted."
             ++ newline)
  /\ files (snd (delete_log scraper_own_log world_own_log))
       !! "/tmp/reporting.log"
     <> files world_own_log !! "/tmp/reporting.log".
Proof.
  split; [vm_compute; reflexivity|].
  split; [vm_compute; reflexivity|].
  split; [vm_compute; reflexivity|].
  vm_compute. discriminate.
Qed.

(** * More of the scraper *)

(** ** A line with a time stamp is parsed on its own *)

Lemma scrape_line_local (parsed : list entry) (line : str) :
  starts_entry line = true ->
  scrape_line parsed line
  = let* es := scrape_line [] line in Ret (parsed ++ es).
Proof.
  unfold starts_entry, scrape_line.
  destruct (search TIMESTAMP_REGEX line) as [m|]; [intros _|done].
  destruct (fromisoformat (group m)); [|done]. simpl.
  destruct (extract_level _) as [lv c2].
  destruct (extract_filename_line_number c2) as [[[f n] c3]|]; [|done].
  simpl. by destruct (line_number_value n).
Qed.

Lemma scrape_line_starts_entry (parsed res : list entry) (line : str) :
  starts_entry line = true ->
  scrape_line parsed line = Ret res ->
  exists e, res = parsed ++ [e] /\ traceback e = []
            /\ scrape_line [] line = Ret [e].
Proof.
  intros Hs Hr. unfold starts_entry in Hs.
  destruct (search TIMESTAMP_REGEX line) as [m|] eqn:E; [|done].
  destruct (scrape_line_new_entry [] line m E) as [(e & He & Ht)|(err & He & _)].
  - exists e. rewrite scrape_line_local, He in Hr by (unfold starts_entry; by rewrite E).
    simpl in Hr. injection Hr as <-. done.
  - rewrite scrape_line_local, He in Hr by (unfold starts_entry; by rewrite E).
    done.
Qed.

Lemma scrape_line_no_entry (parsed res : list entry) (line : str) :
  starts_entry line = false ->
  scrape_line parsed line = Ret res ->
  exists es e, parsed = es ++ [e] /\ res = es ++ [traceback_append line e].
Proof.
  unfold starts_entry. intros Hs Hr.
  destruct (search TIMESTAMP_REGEX line) as [m|] eqn:E; [done|].
  unfold scrape_line in Hr. rewrite E in Hr.
  destruct (last parsed) as [e|] eqn:El; [|done].
  apply last_Some in El as [es ->]. rewrite insert_last in Hr.
  injection Hr as <-. by exists es, e.
Qed.

Lemma without_traceback_fresh (e : entry) :
  traceback e = [] -> without_traceback e = e.
Proof. destruct e. simpl. by intros ->. Qed.

Lemma scrape_lines_entries (parsed es : list entry) (lines : list str) :
  scrape_lines parsed lines = Ret es ->
  exists news,
    map without_traceback es = map without_traceback parsed ++ news
    /\ Forall2 (fun e0 line => scrape_line [] line = Ret [e0])
               news (List.filter starts_entry lines).
Proof.
  revert parsed. induction lines as [|l rest IH]; intros parsed H; simpl in H.
  { injection H as <-. exists []. rewrite app_nil_r. by split. }
  destruct (scrape_line parsed l) as [p'|] eqn:El; [|done]. simpl in H.
  destruct (IH _ H) as (news & Hm & HF). simpl.
  destruct (starts_entry l) eqn:Es.
  - destruct (scrape_line_starts_entry _ _ _ Es El) as (e & -> & Ht & He).
    exists (e :: news). split.
    + rewrite Hm, map_app. simpl. rewrite <- app_assoc. simpl.
      by rewrite without_traceback_fresh.
    + by constructor.
  - destruct (scrape_line_no_entry _ _ _ Es El) as (q & e1 & -> & ->).
    exists news. split; [|done]. rewrite Hm, !map_app. done.
Qed.

Lemma scrape_log_entries (lines : list str) (es : list entry) :
  scrape_log lines = Ret es ->
  Forall2 (fun e line => scrape_line [] line = Ret [without_traceback e])
          es (List.filter starts_entry lines)
  /\ length es = length (List.filter starts_entry lines).
Proof.
  intros H. destruct (scrape_lines_entries [] es lines H) as (news & Hm & HF).
  simpl in Hm. subst news.
  assert (Forall2 (fun e line => scrape_line [] line = Ret [without_traceback e])
                  es (List.filter starts_entry lines)) as HF'.
  { by apply Forall2_fmap_l in HF. }
  split; [done|]. by apply Forall2_length in HF'.
Qed.

(** X1. The entries of a result are, in order, what the lines with a time
    stamp give each on its own, traceback apart: one entry per such line,
    none for the other lines. *)
Theorem entries_are_the_stamped_lines (lines : list str) (es : list entry) :
  scrape_log lines = Ret es ->
  Forall2 (fun e line => scrape_line [] line = Ret [without_traceback e])
          es (List.filter starts_entry lines)
  /\ length es = length (List.filter starts_entry lines).
Proof. apply scrape_log_entries. Qed.

Lemma entries_are_the_stamped_lines_witness :
  Forall2 (fun e line => scrape_line [] line = Ret [without_traceback e])
          [traceback_append (py "Traceback") entry_minimal; entry_minimal]
          (List.filter starts_entry
             [line_minimal; py "Traceback"; line_minimal])
  /\ length [traceback_append (py "Traceback") entry_minimal; entry_minimal]
     = length (List.filter starts_entry
                 [line_minimal; py "Traceback"; line_minimal]).
Proof.
  apply (entries_are_the_stamped_lines
           [line_minimal; py "Traceback"; line_minimal]).
  vm_compute. reflexivity.
Defined.

Lemma scrape_lines_tracebacks (parsed es : list entry) (lines : list str) :
  scrape_lines parsed lines = Ret es ->
  concat (map traceback es)
  = concat (map traceback parsed)
    ++ List.filter (fun line => negb (starts_entry line)) lines.
Proof.
  revert parsed. induction lines as [|l rest IH]; intros parsed H; simpl in H.
  { injection H as <-. by rewrite app_nil_r. }
  destruct (scrape_line parsed l) as [p'|] eqn:El; [|done]. simpl in H.
  rewrite (IH _ H). simpl. destruct (starts_entry l) eqn:Es; simpl.
  - destruct (scrape_line_starts_entry _ _ _ Es El) as (e & -> & Ht & He).
    rewrite map_app, concat_app. simpl. rewrite Ht. simpl.
    by rewrite !app_nil_r.
  - destruct (scrape_line_no_entry _ _ _ Es El) as (q & e1 & -> & ->).
    rewrite !map_app, !concat_app. simpl. rewrite !app_nil_r.
    by rewrite <- !app_assoc.
Qed.

Lemma scrape_log_tracebacks (lines : list str) (es : list entry) :
  scrape_log lines = Ret es ->
  concat (map traceback es)
  = List.filter (fun line => negb (starts_entry line)) lines
  /\ length es + length (concat (map traceback es)) = length lines.
Proof.
  intros H. pose proof (scrape_lines_tracebacks [] es lines H) as Ht.
  simpl in Ht. split; [done|]. rewrite Ht.
  destruct (scrape_log_entries lines es H) as [_ ->].
  clear. induction lines as [|l rest IH]; simpl; [done|].
  destruct (starts_entry l); simpl; lia.
Qed.

(** X2. The tracebacks of a result, one after the other, are the lines
    without a time stamp, each once, unchanged and in the order of the
    input; so every line of the input is either the start of one entry or one
    line of one traceback. *)
Theorem tracebacks_are_the_other_lines (lines : list str) (es : list entry) :
  scrape_log lines = Ret es ->
  concat (map traceback es)
  = List.filter (fun line => negb (starts_entry line)) lines
  /\ length es + length (concat (map traceback es)) = length lines.
Proof. apply scrape_log_tracebacks. Qed.

Lemma tracebacks_are_the_other_lines_witness :
  concat (map traceback
            [traceback_append (py "Traceback") entry_minimal; entry_minimal])
  = List.filter (fun line => negb (starts_entry line))
                [line_minimal; py "Traceback"; line_minimal]
  /\ length [traceback_append (py "Traceback") entry_minimal; entry_minimal]
     + length (concat (map traceback
                         [traceback_append (py "Traceback") entry_minimal;
                          entry_minimal]))
     = length [line_minimal; py "Traceback"; line_minimal].
Proof.
  apply (tracebacks_are_the_other_lines
           [line_minimal; py "Traceback"; line_minimal]).
  vm_compute. reflexivity.
Defined.

(** ** Entries once written *)

Lemma scrape_lines_keeps_all_but_last
  (p : list entry) (x : entry) (lines : list str) (es : list entry) :
  scrape_lines (p ++ [x]) lines = Ret es -> exists more, es = p ++ more.
Proof.
  revert p x. induction lines as [|l rest IH]; intros p x H; simpl in H.
  { injection H as <-. by exists [x]. }
  destruct (scrape_line (p ++ [x]) l) as [p'|] eqn:El; [|done]. simpl in H.
  destruct (starts_entry l) eqn:Es.
  - destruct (scrape_line_starts_entry _ _ _ Es El) as (e & -> & _ & _).
    destruct (IH _ _ H) as (more & ->).
    exists (x :: more). by rewrite <- app_assoc.
  - destruct (scrape_line_no_entry _ _ _ Es El) as (q & e1 & Hq & ->).
    apply app_inj_tail in Hq as [-> ->]. by apply (IH _ _ H).
Qed.

(** X3. Lines read later change an entry already in the list only while it
    is the last one, and only by appending to its traceback: if the lines so
    far give [es ++ [e]], the result for more lines starts with [es], then
    [e] with the continuation lines that follow directly appended, then the
    entries of the later lines. *)
Theorem earlier_entries_are_final
  (before after : list str) (es : list entry) (e : entry) (res : list entry) :
  scrape_log before = Ret (es ++ [e]) ->
  scrape_log (before ++ after) = Ret res ->
  exists more,
    res = es ++ traceback_extend (leading_continuations after) e :: more.
Proof.
  unfold scrape_log. intros Hb Ha. rewrite scrape_lines_app, Hb in Ha.
  simpl in Ha. clear Hb before. revert e Ha.
  induction after as [|l rest IH]; intros e H; simpl in H.
  { injection H as <-. by exists []. }
  destruct (scrape_line (es ++ [e]) l) as [p'|] eqn:El; [|done]. simpl in H.
  simpl. destruct (starts_entry l) eqn:Es.
  - destruct (scrape_line_starts_entry _ _ _ Es El) as (e2 & -> & _ & _).
    destruct (scrape_lines_keeps_all_but_last _ _ _ _ H) as (more & ->).
    exists more. by rewrite <- app_assoc.
  - destruct (scrape_line_no_entry _ _ _ Es El) as (q & e1 & Hq & ->).
    apply app_inj_tail in Hq as [-> ->]. by apply IH.
Qed.

Lemma earlier_entries_are_final_witness :
  exists more,
    [traceback_append (py "Traceback") entry_minimal; entry_minimal]
    = [] ++ traceback_extend
              (leading_continuations [py "Traceback"; line_minimal])
              entry_minimal :: more.
Proof.
  apply (earlier_entries_are_final [line_minimal]
           [py "Traceback"; line_minimal] [] entry_minimal).
  - vm_compute. reflexivity.
  - vm_compute. reflexivity.
Defined.

(** ** Which logs are accepted, and how the others fail *)

Lemma scrape_lines_accepts (parsed : list entry) (lines : list str) :
  parsed <> [] ->
  Forall (fun line => starts_entry line = true ->
                      exists e, scrape_line [] line = Ret [e]) lines ->
  exists es, scrape_lines parsed lines = Ret es /\ es <> [].
Proof.
  intros Hp HF. revert parsed Hp.
  induction HF as [|l rest Hl HF IH]; intros parsed Hp; simpl.
  { by exists parsed. }
  destruct (starts_entry l) eqn:Es.
  - destruct (Hl eq_refl) as (e & He).
    rewrite scrape_line_local, He by done. simpl.
    apply IH. by destruct parsed.
  - destruct (exists_last Hp) as (q & e1 & ->).
    rewrite scrape_line_continuation.
    + simpl. apply IH. by destruct q.
    + unfold starts_entry in Es. by destruct (search TIMESTAMP_REGEX l).
Qed.

Lemma scrape_lines_accepted (parsed es : list entry) (lines : list str) :
  scrape_lines parsed lines = Ret es ->
  Forall (fun line => starts_entry line = true ->
                      exists e, scrape_line [] line = Ret [e]) lines.
Proof.
  revert parsed. induction lines as [|l rest IH]; intros parsed H; [done|].
  simpl in H. destruct (scrape_line parsed l) as [p'|] eqn:El; [|done].
  simpl in H. constructor; [|by apply (IH p')].
  intros Es. destruct (scrape_line_starts_entry _ _ _ Es El) as (e & _ & _ & He).
  by exists e.
Qed.

(** X4. [scrape_log] returns a list exactly when the input is empty or
    starts with a line that has a time stamp, and every line with a time
    stamp can be parsed on its own; lines without a time stamp never make it
    fail after the first line. *)
Theorem scrape_log_accepts_iff (lines : list str) :
  (exists es, scrape_log lines = Ret es)
  <-> match lines with
      | [] => True
      | first :: _ => starts_entry first = true
      end
      /\ Forall (fun line => starts_entry line = true ->
                             exists e, scrape_line [] line = Ret [e]) lines.
Proof.
  unfold scrape_log. split.
  - intros (es & H). split; [|by apply (scrape_lines_accepted [] es)].
    destruct lines as [|l rest]; [done|].
    destruct (starts_entry l) eqn:Es; [done|].
    simpl in H. rewrite scrape_line_first_continuation in H; [done|].
    unfold starts_entry in Es. by destruct (search TIMESTAMP_REGEX l).
  - intros [Hh HF]. destruct lines as [|l rest]; [by exists []|].
    apply Forall_cons in HF as [Hl HF]. destruct (Hl Hh) as (e & He).
    simpl. rewrite He. simpl.
    destruct (scrape_lines_accepts [e] rest) as (es & Hes & _); [done|done|].
    by exists es.
Qed.

Lemma scrape_lines_failure (parsed : list entry) (lines : list str) (err : exn) :
  parsed <> [] ->
  scrape_lines parsed lines = Raise err ->
  exists before line after es,
    lines = before ++ line :: after
    /\ scrape_lines parsed before = Ret es
    /\ starts_entry line = true
    /\ scrape_line [] line = Raise err.
Proof.
  revert parsed. induction lines as [|l rest IH]; intros parsed Hp H; [done|].
  simpl in H. destruct (scrape_line parsed l) as [p'|e] eqn:El; simpl in H.
  - assert (p' <> []) as Hp'.
    { destruct (starts_entry l) eqn:Es.
      - destruct (scrape_line_starts_entry _ _ _ Es El) as (e & -> & _).
        by destruct parsed.
      - destruct (scrape_line_no_entry _ _ _ Es El) as (q & e1 & _ & ->).
        by destruct q. }
    destruct (IH _ Hp' H) as (before & line & after & es & -> & Hb & Hs & Hl).
    exists (l :: before), line, after, es. simpl. rewrite El. by repeat split.
  - injection H as ->. exists [], l, rest, parsed.
    destruct (starts_entry l) eqn:Es.
    + rewrite scrape_line_local in El by done.
      destruct (scrape_line [] l); [done|]. simpl in El. injection El as ->.
      by repeat split.
    + destruct (exists_last Hp) as (q & e1 & ->).
      rewrite scrape_line_continuation in El; [done|].
      unfold starts_entry in Es. by destruct (search TIMESTAMP_REGEX l).
Qed.

(** X5. When [scrape_log] raises, either the first line has no time stamp
    and the exception is the [IndexError] of the empty list, or it is the
    [ValueError] that the first line with a time stamp which cannot be
    parsed raises on its own, the lines before it being accepted. *)
Theorem scrape_log_failure (lines : list str) (err : exn) :
  scrape_log lines = Raise err ->
  (err = IndexError_list_index_out_of_range
   /\ exists first rest, lines = first :: rest /\ starts_entry first = false)
  \/ (exn_class err = "ValueError"
      /\ exists before line after es,
           lines = before ++ line :: after
           /\ scrape_log before = Ret es
           /\ starts_entry line = true
           /\ scrape_line [] line = Raise err).
Proof.
  unfold scrape_log. intros H. destruct lines as [|l rest]; [done|].
  assert (forall line e, starts_entry line = true ->
                         scrape_line [] line = Raise e ->
                         exn_class e = "ValueError") as Hclass.
  { intros line e Es He. unfold starts_entry in Es.
    destruct (search TIMESTAMP_REGEX line) as [m|] eqn:E; [|done].
    destruct (scrape_line_new_entry [] line m E)
      as [(x & Hx & _)|(e' & He' & Hc)]; congruence. }
  destruct (starts_entry l) eqn:Es.
  - right. simpl in H. destruct (scrape_line [] l) as [p'|e] eqn:El; simpl in H.
    + destruct (scrape_line_starts_entry _ _ _ Es El) as (x & -> & _).
      destruct (scrape_lines_failure _ _ _ (ltac:(done) : [] ++ [x] <> []) H)
        as (before & line & after & es & -> & Hb & Hs & Hl).
      split; [by apply (Hclass line)|].
      exists (l :: before), line, after, es. simpl. rewrite El. by repeat split.
    + injection H as ->. split; [by apply (Hclass l)|].
      by exists [], l, rest, [].
  - left. simpl in H. rewrite scrape_line_first_continuation in H.
    + injection H as <-. split; [done|]. by exists l, rest.
    + unfold starts_entry in Es. by destruct (search TIMESTAMP_REGEX l).
Qed.

Lemma scrape_log_failure_witness :
  (ValueError_unpack 2 1 = IndexError_list_index_out_of_range
   /\ exists first rest,
        [line_minimal; line_no_colon] = first :: rest
        /\ starts_entry first = false)
  \/ (exn_class (ValueError_unpack 2 1) = "ValueError"
      /\ exists before line after es,
           [line_minimal; line_no_colon] = before ++ line :: after
           /\ scrape_log before = Ret es
           /\ starts_entry line = true
           /\ scrape_line [] line = Raise (ValueError_unpack 2 1)).
Proof.
  apply (scrape_log_failure [line_minimal; line_no_colon]).
  vm_compute. reflexivity.
Defined.

(** ** [strip] *)

Lemma lstrip_head (s : str) :
  match lstrip s with
  | [] => True
  | c :: _ => is_space c = false
  end.
Proof.
  induction s as [|c s IH]; simpl; [done|].
  destruct (is_space c) eqn:E; [done|]. by rewrite E.
Qed.

Lemma lstrip_clean (c : ascii) (s : str) :
  is_space c = false -> lstrip (c :: s) = c :: s.
Proof. intros H. simpl. by rewrite H. Qed.

Lemma lstrip_idem (s : str) : lstrip (lstrip s) = lstrip s.
Proof.
  pose proof (lstrip_head s) as H. destruct (lstrip s) as [|c t]; [done|].
  by apply lstrip_clean.
Qed.

Lemma lstrip_spaces (ws s : str) :
  forallb is_space ws = true -> lstrip (ws ++ s) = lstrip s.
Proof.
  induction ws as [|c ws IH]; simpl; [done|].
  intros [Hc Hws]%andb_prop. rewrite Hc. by apply IH.
Qed.

Lemma lstrip_snoc (u : str) (c : ascii) :
  is_space c = false -> lstrip (u ++ [c]) = lstrip u ++ [c].
Proof.
  intros H. induction u as [|x u IH]; simpl; [by rewrite H|].
  by destruct (is_space x).
Qed.

Lemma rstrip_idem (s : str) : rstrip (rstrip s) = rstrip s.
Proof. unfold rstrip. by rewrite rev_involutive, lstrip_idem. Qed.

Lemma rstrip_cons (c : ascii) (s : str) :
  is_space c = false -> rstrip (c :: s) = c :: rstrip s.
Proof.
  intros H. unfold rstrip. simpl. rewrite lstrip_snoc by done.
  by rewrite rev_app_distr.
Qed.

Lemma rstrip_spaces (s ws : str) :
  forallb is_space ws = true -> rstrip (s ++ ws) = rstrip s.
Proof.
  intros H. unfold rstrip. rewrite rev_app_distr, lstrip_spaces; [done|].
  rewrite forallb_forall in *. intros x Hx. apply H. by apply in_rev.
Qed.

Lemma rstrip_snoc (s : str) (c : ascii) :
  is_space c = false -> rstrip (s ++ [c]) = s ++ [c].
Proof.
  intros H. unfold rstrip. rewrite rev_app_distr. simpl. rewrite H.
  simpl. by rewrite rev_involutive.
Qed.

Lemma lstrip_strip (s : str) : lstrip (strip s) = strip s.
Proof.
  unfold strip. pose proof (lstrip_head s) as H.
  destruct (lstrip s) as [|c t]; [done|].
  rewrite rstrip_cons by done. by apply lstrip_clean.
Qed.

Lemma strip_idem (s : str) : strip (strip s) = strip s.
Proof.
  unfold strip at 1. rewrite lstrip_strip. unfold strip.
  by rewrite rstrip_idem.
Qed.

(** A text between white space, itself with none at either end. *)
Lemma strip_between (ws1 t ws2 : str) (c d : ascii) (u : str) :
  forallb is_space ws1 = true -> forallb is_space ws2 = true ->
  t = c :: u -> is_space c = false ->
  (exists v, t = v ++ [d]) -> is_space d = false ->
  strip (ws1 ++ t ++ ws2) = t.
Proof.
  intros H1 H2 Ht Hc (v & Hv) Hd. unfold strip.
  rewrite lstrip_spaces by done. rewrite Ht. simpl app.
  rewrite lstrip_clean by done.
  change (c :: u ++ ws2) with ((c :: u) ++ ws2). rewrite <- Ht.
  rewrite rstrip_spaces by done. rewrite Hv. by apply rstrip_snoc.
Qed.

Lemma strip_leading (ws t : str) (c d : ascii) (u : str) :
  forallb is_space ws = true ->
  t = c :: u -> is_space c = false ->
  (exists v, t = v ++ [d]) -> is_space d = false ->
  strip (ws ++ t) = t.
Proof.
  intros H1 Ht Hc Hv Hd.
  rewrite <- (strip_between ws t [] c d u) at 2 by done.
  by rewrite app_nil_r.
Qed.

(** ** The fields of an entry *)

Lemma digit_value_range (c : ascii) :
  is_digit c = true -> (0 <= digit_value c <= 9)%Z.
Proof.
  unfold is_digit, in_range, digit_value.
  intros [H1 H2]%andb_prop.
  apply Nat.leb_le in H1. apply Nat.leb_le in H2.
  change (code "0") with 48 in *. change (code "9") with 57 in *. lia.
Qed.

Lemma decimal_nonneg (ds : list ascii) : (0 <= decimal ds)%Z.
Proof.
  unfold decimal.
  assert (forall n, (0 <= n)%Z ->
            (0 <= fold_left (fun n c => 10 * n + digit_value c) ds n)%Z) as H.
  { induction ds as [|c ds IH]; intros n Hn; simpl; [done|].
    apply IH. unfold digit_value. lia. }
  by apply H.
Qed.

Lemma int_nonneg (s : str) (n : Z) : int s = Ret n -> (0 <= n)%Z.
Proof.
  unfold int. destruct (literal_digits false s) as [ds|]; [|done].
  destruct (_ <? _); [done|]. intros [= <-]. apply decimal_nonneg.
Qed.

Lemma split_two (sep : ascii) (s a b : str) :
  split sep s = [a; b] ->
  s = a ++ sep :: b /\ count sep a = 0 /\ count sep b = 0.
Proof.
  intros H.
  assert (0 < count sep s) as Hc.
  { pose proof (length_split sep s) as Hl. rewrite H in Hl. simpl in Hl. lia. }
  destruct (split_first_spec sep s Hc) as (Hs & Ha & Hsp).
  rewrite H in Hsp. injection Hsp as Hfa Hfb.
  pose proof (length_split sep (snd (split_first sep s))) as Hl.
  rewrite <- Hfb in Hl. simpl in Hl.
  rewrite split_no_sep in Hfb by lia. injection Hfb as Hfb.
  rewrite <- Hfa, <- Hfb in *. split; [done|]. split; [done|lia].
Qed.

Lemma fromisoformat_in_range (ts : str) (d : datetime) :
  timestamp_shaped ts -> fromisoformat ts = Ret d -> date_in_range d.
Proof.
  intros [_ Hshape]. unfold fromisoformat.
  do 23 (destruct ts as [|? ts]; [done|]). destruct ts; [|done].
  unfold TIMESTAMP_CLASSES in Hshape. cbn [match_classes] in Hshape.
  apply andb_prop in Hshape as [Hy1 _]. unfold is_char in Hy1.
  apply Ascii.eqb_eq in Hy1 as <-.
  destruct (forallb is_digit _ && _ && _ && _ && _ && _) eqn:Hc; [|done].
  cbn [forallb] in Hc.
  repeat match goal with
         | H : (_ && _) = true |- _ => apply andb_prop in H as [? ?]
         end.
  repeat match goal with
         | H : is_digit _ = true |- _ => apply digit_value_range in H
         end.
  repeat (match goal with
          | |- context [if negb ?b then _ else _] => destruct b eqn:?
          end; cbn [negb]; [|done]).
  intros [= <-]. unfold date_in_range. cbn [year month day hour minute second microsecond].
  repeat match goal with
         | H : (_ && _) = true |- _ => apply andb_prop in H as [? ?]
         | H : (_ <=? _)%Z = true |- _ => apply Z.leb_le in H
         end.
  unfold decimal in *. cbn [fold_left] in *.
  change (digit_value "2") with 2%Z in *.
  repeat split; try lia.
  apply Z.mod_mul. lia.
Qed.

Lemma scrape_line_fields (line : str) (e : entry) :
  starts_entry line = true ->
  scrape_line [] line = Ret [e] ->
  date_in_range (log_date e)
  /\ (forall lv, log_level e = Some lv ->
        4 <= length lv /\ forallb is_upper lv = true)
  /\ (forall file, log_filename e = Some file ->
        forallb filename_char file = true /\ count ":" file = 0)
  /\ (0 <= log_line_number e)%Z
  /\ strip (content e) = content e.
Proof.
  unfold starts_entry. intros Hs H.
  destruct (search TIMESTAMP_REGEX line) as [m|] eqn:E; [clear Hs|done].
  destruct (timestamp_match_shape _ _ E) as [Hshape _].
  unfold scrape_line in H. rewrite E in H.
  destruct (fromisoformat (group m)) as [d|] eqn:Hd; [|done]. simpl in H.
  destruct (extract_level _) as [lv c2] eqn:Hl.
  destruct (extract_filename_line_number c2) as [[[f n] c3]|] eqn:Hf; [|done].
  simpl in H. destruct (line_number_value n) as [v|] eqn:Hn; [|done].
  simpl in H. injection H as <-. cbn [log_date log_level log_filename
                                      log_line_number content].
  assert (strip c2 = c2) as Hc2.
  { unfold extract_level in Hl.
    destruct (search LOG_LEVEL_REGEX _); injection Hl as <- <-;
      apply strip_idem. }
  split; [by apply (fromisoformat_in_range (group m))|].
  split; [|split; [|split]].
  - intros lv' ->. unfold extract_level in Hl.
    destruct (search LOG_LEVEL_REGEX _) as [ml|] eqn:El; [|done].
    destruct (level_match_pieces _ _ El) as (l & -> & Hg & Hlen & Hup).
    rewrite Hg in Hl. by injection Hl as <- <-.
  - intros file ->. unfold extract_filename_line_number in Hf.
    destruct (re_match FILENAME_LINE_NUMBER_REGEX c2) as [mf|] eqn:Em; [|done].
    destruct (filename_match_pieces _ _ Em) as (inner & -> & _ & Hall).
    unfold group1 in Hf. simpl nth in Hf.
    destruct (split ":" inner) as [|a [|b [|x xs]]] eqn:Esp; try done.
    simpl in Hf. injection Hf as <- <- <-.
    apply split_two in Esp as (-> & Ha & _).
    rewrite forallb_app in Hall. by apply andb_prop in Hall as [Hall _].
  - destruct n as [[|c n]|]; simpl in Hn; try (by injection Hn as <-).
    by apply int_nonneg in Hn.
  - unfold extract_filename_line_number in Hf.
    destruct (re_match FILENAME_LINE_NUMBER_REGEX c2) as [mf|].
    + destruct (unpack2 _); [|done]. simpl in Hf. injection Hf as <- <- <-.
      apply strip_idem.
    + by injection Hf as <- <- <-.
Qed.

(** X6. Every entry of a result has a date of the years 2000 to 2999 with
    month, day, hour, minute and second in range and whole milliseconds; a
    level, if any, of at least four capital letters; a file name, if any,
    of the characters of the file pattern without colon; a line number that
    is not negative; a content without white space at either end; and a
    traceback none of whose lines has a time stamp. *)
Theorem entries_are_well_formed (lines : list str) (es : list entry) :
  scrape_log lines = Ret es -> Forall well_formed es.
Proof.
  intros H.
  destruct (scrape_log_entries lines es H) as [HF _].
  destruct (scrape_log_tracebacks lines es H) as [Ht _].
  assert (Forall (fun line => starts_entry line = true)
                 (List.filter starts_entry lines)) as Hs.
  { apply List.Forall_forall. intros x Hx. by apply filter_In in Hx as [_ Hx]. }
  assert (Forall (fun e => Forall (fun line => search TIMESTAMP_REGEX line = None)
                                  (traceback e)) es) as Htb.
  { apply List.Forall_forall. intros e He.
    apply List.Forall_forall. intros l Hl.
    assert (In l (concat (map traceback es))) as Hin.
    { apply in_concat. exists (traceback e). split; [|done]. by apply in_map. }
    rewrite Ht in Hin. apply filter_In in Hin as [_ Hin].
    unfold starts_entry in Hin. by destruct (search TIMESTAMP_REGEX l). }
  clear H Ht. induction HF as [|e l es ls He HF IH]; [constructor|].
  apply Forall_cons in Hs as [Hl Hs]. apply Forall_cons in Htb as [Hte Htb].
  constructor; [|by apply IH].
  destruct (scrape_line_fields l _ Hl He) as (H1 & H2 & H3 & H4 & H5).
  unfold well_formed. by destruct e.
Qed.

Lemma entries_are_well_formed_witness :
  Forall well_formed
    [traceback_append (py "Traceback") entry_minimal; entry_minimal].
Proof.
  apply (entries_are_well_formed [line_minimal; py "Traceback"; line_minimal]).
  vm_compute. reflexivity.
Defined.

(** * The formatter *)

Lemma truncate_idem (n : nat) (msg : str) :
  truncate n (strip (truncate n (strip msg))) = truncate n (strip msg)
  /\ length (truncate n (strip msg)) <= n + 3
  /\ strip (truncate n (strip msg)) = truncate n (strip msg).
Proof.
  pose proof (strip_idem msg) as Hm. pose proof (lstrip_strip msg) as Hh.
  remember (strip msg) as m eqn:Em. clear Em.
  unfold truncate.
  destruct (Nat.ltb_spec n (length m)) as [Hlt|Hle].
  - assert (strip (take n m ++ py "...") = take n m ++ py "...") as Hs.
    { unfold strip.
      assert (lstrip (take n m ++ py "...") = take n m ++ py "...") as ->.
      { pose proof (lstrip_head m) as Hc. rewrite Hh in Hc.
        destruct m as [|c m']; [simpl in Hlt; lia|].
        destruct n; [done|]. simpl. by rewrite Hc. }
      change (py "...") with (py ".." ++ ["."%char]).
      rewrite app_assoc. by apply rstrip_snoc. }
    rewrite Hs.
    assert (length (take n m ++ py "...") = n + 3) as Hl.
    { rewrite length_app, length_take. simpl. lia. }
    rewrite Hl.
    destruct (Nat.ltb_spec n (n + 3)) as [_|?]; [|lia].
    split; [|split; [lia|done]].
    rewrite take_app_le by (rewrite length_take; lia).
    rewrite take_take. by replace (n `min` n) with n by lia.
  - rewrite Hm.
    destruct (Nat.ltb_spec n (length m)) as [?|_]; [lia|].
    split; [done|]. split; [lia|done].
Qed.

Lemma normalise_idem (msg : str) :
  normalise (normalise msg) = normalise msg
  /\ length (normalise msg) <= MAX_LENGTH + 3
  /\ strip (normalise msg) = normalise msg.
Proof. unfold normalise. apply (truncate_idem MAX_LENGTH msg). Qed.

(** X7. Each handler's formatter strips the message of the record and cuts
    it to [MAX_LENGTH] characters and three dots, in place, so the second
    handler formats what the first one left. Doing it twice changes nothing
    more: both handlers write the same line, the one [format] gives, whose
    message has at most [MAX_LENGTH + 3] characters and no white space at
    either end. *)
Theorem handlers_write_the_same_line
  (levelname lineno : string) (msg : str) (w : world) :
  callHandlers levelname lineno msg w = logger_log levelname lineno msg w
  /\ fst (format_record (now w) levelname lineno msg)
     = format (now w) levelname lineno msg
  /\ snd (format_record (now w) levelname lineno msg) = normalise msg
  /\ format_record (now w) levelname lineno (normalise msg)
     = format_record (now w) levelname lineno msg
  /\ length (normalise msg) <= MAX_LENGTH + 3
  /\ strip (normalise msg) = normalise msg.
Proof.
  destruct (normalise_idem msg) as (Hi & Hl & Hs).
  assert (forall now m, format_record now levelname lineno m
                        = (now ++ py " " ++ py levelname ++ py " [logger.py:"
                               ++ py lineno ++ py "] " ++ normalise m,
                           normalise m)) as Hf by done.
  assert (forall now m, format now levelname lineno m
                        = now ++ py " " ++ py levelname ++ py " [logger.py:"
                              ++ py lineno ++ py "] " ++ normalise m) as Hg by done.
  split; [|split; [|split; [|split; [|split]]]].
  - unfold callHandlers. rewrite Hf.
    change (now (file_handler_emit _ w)) with (now w).
    rewrite Hf, Hi. unfold logger_log. cbv zeta. by rewrite Hg.
  - by rewrite Hf, Hg.
  - by rewrite Hf.
  - by rewrite !Hf, Hi.
  - done.
  - done.
Qed.

(** * From the formatter to the scraper *)

Lemma search_at_start (re : list atom) (s : str) (ps : list str) :
  re_match re s = Some ps -> search re s = Some ps.
Proof. intros H. destruct s; simpl; by rewrite H. Qed.

Lemma replace_from_absent (old new s : str) :
  contains old s = false -> replace_from old new 0 s = s.
Proof.
  induction s as [|c s IH]; [done|].
  simpl contains. intros [H1 H2]%orb_false_elim.
  rewrite replace_from_other by done. by rewrite IH.
Qed.

(** The matched text at the head of the working text, and nowhere else. *)
Lemma remove_match_at_start (old rest : str) :
  old <> [] -> contains old rest = false ->
  remove_match old (old ++ rest) = strip rest.
Proof.
  intros Ho Hc. unfold remove_match.
  assert (replace old [] (old ++ rest) = replace_from old [] 0 (old ++ rest))
    as -> by (by destruct old).
  rewrite replace_from_occurrence by done.
  by rewrite replace_from_absent.
Qed.

Lemma first_some_first {A B} (f : A -> option B) (x : A) (l : list A) (y : B) :
  f x = Some y -> first_some f (x :: l) = Some y.
Proof. intros H. simpl. by rewrite H. Qed.

Lemma re_match_lit (c : ascii) (re : list atom) (s : str) :
  re_match (lit c :: re) (c :: s)
  = match re_match re s with
    | Some ps => Some ([c] :: ps)
    | None => None
    end.
Proof.
  cbn [re_match]. rewrite counts_fixed by done.
  cbn [lit lo cls span]. unfold is_char. rewrite Ascii.eqb_refl.
  cbn. rewrite ?take_0, ?drop_0. by destruct (re_match re s).
Qed.

(** A greedy class takes all the characters of the class when the rest of
    the pattern matches after them. *)
Lemma re_match_greedy_all (n : nat) (p : ascii -> bool) (re : list atom)
  (s : str) (ps : list str) :
  n <= span p s ->
  re_match re (drop (span p s) s) = Some ps ->
  re_match (at_least n p :: re) s = Some (take (span p s) s :: ps).
Proof.
  intros Hn Hm. cbn [re_match]. unfold counts. cbn [at_least cls lo hi greedy].
  replace (S (span p s) - n) with (S (span p s - n)) by lia.
  rewrite seq_S, rev_app_distr. cbn [rev app].
  replace (n + (span p s - n)) with (span p s) by lia.
  apply first_some_first. by rewrite Hm.
Qed.

Lemma span_all (p : ascii -> bool) (a b : str) :
  forallb p a = true ->
  match b with [] => True | c :: _ => p c = false end ->
  span p (a ++ b) = length a.
Proof.
  intros Ha Hb. induction a as [|x a IH]; simpl.
  - destruct b as [|c b]; [done|]. simpl. by rewrite Hb.
  - simpl in Ha. apply andb_prop in Ha as [-> Ha]. by rewrite IH.
Qed.

Lemma split_at_sep (sep : ascii) (a b : str) :
  count sep a = 0 -> split sep (a ++ sep :: b) = a :: split sep b.
Proof.
  induction a as [|x a IH]; simpl.
  - by rewrite Ascii.eqb_refl.
  - destruct (Ascii.eqb x sep); [done|]. simpl. intros H. by rewrite IH.
Qed.

Lemma literal_digits_chars (after_digit : bool) (s : str) (ds : list ascii) :
  literal_digits after_digit s = Some ds ->
  forallb filename_char s = true.
Proof.
  revert after_digit ds. induction s as [|c s IH]; intros ad ds; [done|].
  cbn [literal_digits forallb]. unfold filename_char at 1.
  destruct (is_digit c) eqn:Ed.
  - destruct (literal_digits true s) eqn:E; [|done]. intros _.
    rewrite (IH _ _ E). by rewrite !orb_true_r.
  - destruct (is_char "_" c) eqn:Eu; [|done]. destruct ad; [|done].
    simpl. intros H. rewrite (IH _ _ H). by rewrite !orb_true_r.
Qed.

Lemma int_chars (s : str) (n : Z) :
  int s = Ret n ->
  s <> [] /\ forallb filename_char s = true /\ count ":" s = 0.
Proof.
  unfold int. destruct (literal_digits false s) as [ds|] eqn:E; [|done].
  intros _. split; [by destruct s|]. split; [by apply literal_digits_chars in E|].
  destruct (count ":" s) eqn:Ec; [done|].
  rewrite literal_digits_colon in E; [done|lia].
Qed.

Lemma upper_not_space (c : ascii) : is_upper c = true -> is_space c = false.
Proof.
  unfold is_upper, in_range, is_space. change (code "A") with 65.
  change (code "Z") with 90. intros [H1 H2]%andb_prop.
  apply Nat.leb_le in H1. apply Nat.leb_le in H2.
  repeat match goal with
         | |- context [?a <=? ?b] => destruct (Nat.leb_spec a b); try lia
         | |- context [?a =? ?b] => destruct (Nat.eqb_spec a b); try lia
         end.
  all: done.
Qed.

Lemma strip_last (s : str) :
  strip s = s -> s <> [] -> exists v d, s = v ++ [d] /\ is_space d = false.
Proof.
  intros Hs Hn. destruct (exists_last Hn) as (v & d & Hv).
  exists v, d. split; [done|].
  pose proof (lstrip_head (rev (lstrip s))) as Hh.
  assert (lstrip (rev (lstrip s)) = rev s) as He.
  { unfold strip, rstrip in Hs. rewrite <- Hs at 2. by rewrite rev_involutive. }
  rewrite He, Hv, rev_app_distr in Hh. done.
Qed.

Lemma timestamp_search_at_start (ts rest : str) :
  timestamp_shaped ts ->
  exists m, search TIMESTAMP_REGEX (ts ++ rest) = Some m /\ group m = ts.
Proof.
  intros [Hlen Hc].
  exists (chunks (map lo TIMESTAMP_REGEX) (ts ++ rest)). split.
  - apply search_at_start. rewrite timestamp_re_match.
    rewrite match_classes_prefix, Hc; [done|].
    rewrite Hlen. change (length TIMESTAMP_CLASSES) with 23. lia.
  - unfold group. rewrite concat_chunks.
    change (sum_list (map lo TIMESTAMP_REGEX)) with 23.
    rewrite <- Hlen. by rewrite take_app_length.
Qed.

Lemma level_at_start (lvl rest : str) :
  4 <= length lvl -> forallb is_upper lvl = true ->
  match rest with [] => True | c :: _ => is_upper c = false end ->
  search LOG_LEVEL_REGEX (lvl ++ rest) = Some [lvl].
Proof.
  intros Hlen Hup Hrest. apply search_at_start. unfold LOG_LEVEL_REGEX.
  pose proof (span_all is_upper lvl rest Hup Hrest) as Hspan.
  rewrite (re_match_greedy_all 4 is_upper [] (lvl ++ rest) []).
  - by rewrite Hspan, take_app_length.
  - lia.
  - done.
Qed.

Lemma file_token_at_start (inner rest : str) :
  inner <> [] -> forallb filename_char inner = true ->
  re_match FILENAME_LINE_NUMBER_REGEX (py "[" ++ inner ++ py "]" ++ rest)
  = Some [py "["; inner; py "]"].
Proof.
  intros Hn Hall. unfold FILENAME_LINE_NUMBER_REGEX.
  change (py "[" ++ inner ++ py "]" ++ rest)
    with ("["%char :: inner ++ "]"%char :: rest).
  rewrite re_match_lit.
  pose proof (span_all filename_char inner ("]"%char :: rest) Hall eq_refl)
    as Hspan.
  rewrite (re_match_greedy_all 1 filename_char [lit "]"] _ [py "]"]).
  - by rewrite Hspan, take_app_length.
  - rewrite Hspan. destruct inner; [done|simpl; lia].
  - rewrite Hspan, drop_app_length. by rewrite re_match_lit.
Qed.

Lemma formatted_record_parse
  (ts : str) (d : datetime) (levelname lineno : string) (n : Z) (msg : str) :
  timestamp_shaped ts ->
  fromisoformat ts = Ret d ->
  4 <= length (py levelname) ->
  forallb is_upper (py levelname) = true ->
  int (py lineno) = Ret n ->
  normalise msg <> [] ->
  contains ts (py " " ++ py levelname ++ py " [logger.py:" ++ py lineno
                 ++ py "] " ++ normalise msg ++ newline) = false ->
  contains (py levelname)
           (py " [logger.py:" ++ py lineno ++ py "] " ++ normalise msg)
  = false ->
  contains (py "[" ++ (py "logger.py:" ++ py lineno) ++ py "]")
           (py " " ++ normalise msg) = false ->
  scrape_log [format ts levelname lineno msg ++ newline]
  = Ret [ Entry d (Some (py levelname)) (Some (py "logger.py")) n
                (normalise msg) [] ].
Proof.
  intros Hshape Hd Hlen Hup Hint Hmsg Hc1 Hc2 Hc3.
  set (lvl := py levelname) in *. set (N := py lineno) in *.
  destruct (normalise_idem msg) as (_ & _ & Hstrip).
  remember (normalise msg) as m eqn:Em.
  destruct (strip_last m Hstrip Hmsg) as (mv & md & Hmv & Hmd).
  destruct (int_chars _ _ Hint) as (HN & HNall & HNc).
  destruct lvl as [|l0 lvl'] eqn:El; [simpl in Hlen; lia|].
  assert (is_space l0 = false) as Hl0.
  { simpl in Hup. apply andb_prop in Hup as [Hup _]. by apply upper_not_space. }
  rewrite <- El in *.
  set (inner := py "logger.py:" ++ N) in *.
  set (c2 := py "[" ++ inner ++ py "]" ++ py " " ++ m).
  set (c1 := lvl ++ py " " ++ c2).
  assert (format ts levelname lineno msg ++ newline
          = ts ++ py " " ++ c1 ++ newline) as Hline.
  { assert (format ts levelname lineno msg
            = ts ++ py " " ++ lvl ++ py " [logger.py:" ++ N ++ py "] "
                 ++ normalise msg) as -> by done.
    rewrite <- Em. unfold c1, c2, inner. rewrite <- !app_assoc. done. }
  destruct (timestamp_search_at_start ts (py " " ++ c1 ++ newline) Hshape)
    as (m0 & Hs & Hg).
  assert (remove_match ts (ts ++ py " " ++ c1 ++ newline) = c1) as Hr1.
  { rewrite remove_match_at_start.
    - apply (strip_between (py " ") c1 newline l0 md (lvl' ++ py " " ++ c2));
        try done.
      + unfold c1. by rewrite El.
      + exists (lvl ++ py " " ++ py "[" ++ inner ++ py "]" ++ py " " ++ mv).
        unfold c1, c2. rewrite Hmv. by rewrite <- !app_assoc.
    - destruct Hshape as [Hl _]. by destruct ts.
    - replace (py " " ++ c1 ++ newline)
        with (py " " ++ lvl ++ py " [logger.py:" ++ N ++ py "] " ++ m
                ++ newline); [done|].
      unfold c1, c2, inner. rewrite <- !app_assoc. reflexivity. }
  assert (extract_level c1 = (Some lvl, c2)) as Hlv.
  { unfold extract_level, c1. rewrite level_at_start by done.
    change (group [lvl]) with (lvl ++ []). rewrite app_nil_r.
    rewrite remove_match_at_start.
    - f_equal.
      apply (strip_leading (py " ") c2 "["%char md
                           (inner ++ py "]" ++ py " " ++ m)); try done.
      exists (py "[" ++ inner ++ py "]" ++ py " " ++ mv).
      unfold c2. rewrite Hmv. by rewrite <- !app_assoc.
    - by rewrite El.
    - replace (py " " ++ c2)
        with (py " [logger.py:" ++ N ++ py "] " ++ m); [done|].
      unfold c2, inner. rewrite <- !app_assoc. reflexivity. }
  assert (re_match FILENAME_LINE_NUMBER_REGEX c2
          = Some [py "["; inner; py "]"]) as Hf.
  { unfold c2. apply file_token_at_start.
    - done.
    - unfold inner. rewrite forallb_app, HNall. done. }
  unfold scrape_log. rewrite Hline. cbn [scrape_lines].
  rewrite (scrape_line_with_file [] _ m0 d (Some lvl) c2 [py "["; inner; py "]"]);
    [|done|by rewrite Hg|by rewrite Hg, Hr1|done].
  unfold file_and_line_of_code, group1. cbn [nth].
  assert (split ":" inner = [py "logger.py"; N]) as ->.
  { unfold inner. change (py "logger.py:" ++ N) with (py "logger.py" ++ ":"%char :: N).
    rewrite split_at_sep by done. by rewrite split_no_sep. }
  cbn [unpack2 bind fst snd]. unfold line_number_value.
  destruct N as [|x N'] eqn:EN; [done|]. rewrite <- EN in *. rewrite Hint.
  cbn [bind app]. do 3 f_equal.
  assert (group [py "["; inner; py "]"] = py "[" ++ inner ++ py "]") as ->.
  { unfold group. cbn [concat]. by rewrite app_nil_r. }
  unfold c2.
  replace (py "[" ++ inner ++ py "]" ++ py " " ++ m)
    with ((py "[" ++ inner ++ py "]") ++ py " " ++ m)
    by (by rewrite <- !app_assoc).
  rewrite remove_match_at_start; [|done|done].
  destruct m as [|mc mu] eqn:Emm; [done|].
  apply (strip_leading (py " ") (mc :: mu) mc md mu); try done.
  - pose proof (lstrip_head (mc :: mu)) as Hh.
    assert (lstrip (mc :: mu) = mc :: mu) as Hls.
    { rewrite <- Hstrip. apply lstrip_strip. }
    by rewrite Hls in Hh.
  - by exists mv.
Qed.

(** X8. What the module's formatter writes for a record, the scraper reads
    back: a line made of a time stamp that is a date, a level name of at
    least four capital letters, the file and line of the call and a message
    that is not empty gives one entry with exactly these fields, the message
    stripped and cut as the formatter leaves it, provided the stamp, the
    level name and the bracketed token do not come again in what follows
    them. *)
Theorem formatted_record_is_read_back
  (ts : str) (d : datetime) (levelname lineno : string) (n : Z) (msg : str) :
  timestamp_shaped ts ->
  fromisoformat ts = Ret d ->
  4 <= length (py levelname) ->
  forallb is_upper (py levelname) = true ->
  int (py lineno) = Ret n ->
  normalise msg <> [] ->
  contains ts (py " " ++ py levelname ++ py " [logger.py:" ++ py lineno
                 ++ py "] " ++ normalise msg ++ newline) = false ->
  contains (py levelname)
           (py " [logger.py:" ++ py lineno ++ py "] " ++ normalise msg)
  = false ->
  contains (py "[" ++ (py "logger.py:" ++ py lineno) ++ py "]")
           (py " " ++ normalise msg) = false ->
  scrape_log [format ts levelname lineno msg ++ newline]
  = Ret [ Entry d (Some (py levelname)) (Some (py "logger.py")) n
                (normalise msg) [] ].
Proof. apply formatted_record_parse. Qed.

Lemma formatted_record_witness :
  scrape_log [format (py "2024-01-15 10:31:00.000") "INFO" "194"
                     (py "  Calling delete_log ") ++ newline]
  = Ret [ Entry (Datetime 2024 1 15 10 31 0 0) (Some (py "INFO"))
                (Some (py "logger.py")) 194
                (normalise (py "  Calling delete_log ")) [] ].
Proof.
  apply (formatted_record_is_read_back
           (py "2024-01-15 10:31:00.000") (Datetime 2024 1 15 10 31 0 0)
           "INFO" "194" 194 (py "  Calling delete_log ")).
  - split; vm_compute; reflexivity.
  - vm_compute. reflexivity.
  - vm_compute. lia.
  - vm_compute. reflexivity.
  - vm_compute. reflexivity.
  - vm_compute. discriminate.
  - vm_compute. reflexivity.
  - vm_compute. reflexivity.
  - vm_compute. reflexivity.
Defined.

(** * The tag resolver, with a marker *)

Lemma first_some_seq_inv {B} (f : nat -> option B) (a n : nat) (y : B) :
  first_some f (seq a n) = Some y ->
  exists k, a <= k < a + n /\ f k = Some y
            /\ forall j, a <= j < k -> f j = None.
Proof.
  revert a. induction n as [|n IH]; intros a; simpl; [done|].
  destruct (f a) as [y'|] eqn:E.
  - intros [= <-]. exists a. split; [lia|]. split; [done|]. intros j Hj. lia.
  - intros H. destruct (IH _ H) as (k & Hk & Hf & Hmin).
    exists k. split; [lia|]. split; [done|]. intros j Hj.
    destruct (Nat.eq_dec j a) as [->|Hne]; [done|]. apply Hmin. lia.
Qed.

Lemma first_some_seq_min {B} (f : nat -> option B) (a n k : nat) (y : B) :
  a <= k < a + n ->
  (forall j, a <= j < k -> f j = None) ->
  f k = Some y ->
  first_some f (seq a n) = Some y.
Proof.
  revert a. induction n as [|n IH]; intros a Hk Hmin Hf; simpl; [lia|].
  destruct (Nat.eq_dec k a) as [->|Hne]; [by rewrite Hf|].
  rewrite Hmin by lia. apply IH; [lia| |done]. intros j Hj. apply Hmin. lia.
Qed.

Lemma re_match_lit_inv (c : ascii) (re : list atom) (s : str) (ps : list str) :
  re_match (lit c :: re) s = Some ps ->
  exists s' ps', s = c :: s' /\ ps = [c] :: ps' /\ re_match re s' = Some ps'.
Proof.
  destruct s as [|x s].
  { cbn [re_match]. rewrite counts_fixed by done. cbn. done. }
  destruct (Ascii.eqb c x) eqn:E.
  - apply Ascii.eqb_eq in E as <-. rewrite re_match_lit.
    destruct (re_match re s) as [ps'|] eqn:Em; [|done].
    intros [= <-]. by exists s, ps'.
  - cbn [re_match]. rewrite counts_fixed by done. cbn [lit lo cls span].
    unfold is_char. rewrite E. cbn. done.
Qed.

Lemma span_ge (p : ascii -> bool) (a b : str) :
  forallb p a = true -> length a <= span p (a ++ b).
Proof.
  induction a as [|x a IH]; simpl; [lia|].
  intros [-> Ha]%andb_prop. apply IH in Ha. lia.
Qed.

Lemma closing_match (s : str) :
  re_match [lit "]"; lit "]"] s
  = if match_classes [is_char "]"; is_char "]"] s
    then Some [take 1 s; take 1 (drop 1 s)] else None.
Proof.
  rewrite re_match_fixed; [done|]. repeat constructor.
Qed.

Lemma re_match_lazy (p : ascii -> bool) (re : list atom) (s : str) :
  re_match (lazy_star p :: re) s
  = first_some (fun k => match re_match re (drop k s) with
                         | Some ps => Some (take k s :: ps)
                         | None => None
                         end)
               (seq 0 (S (span p s))).
Proof.
  cbn [re_match]. unfold counts. cbn [lazy_star cls lo hi greedy].
  by rewrite Nat.sub_0_r.
Qed.

(** The text of a marker, searched again, is matched whole. *)
Lemma marker_matches_itself (body g : str) (ps : list str) :
  re_match [lazy_star dot; lit "]"; lit "]"] body = Some (g :: ps) ->
  ps = [py "]"; py "]"]
  /\ re_match [lazy_star dot; lit "]"; lit "]"] (g ++ py "]]") = Some (g :: ps).
Proof.
  rewrite !re_match_lazy.
  intros H. apply first_some_seq_inv in H as (k & Hk & Hf & Hmin).
  destruct (re_match [lit "]"; lit "]"] (drop k body)) as [ps'|] eqn:Ec; [|done].
  injection Hf as <- <-.
  rewrite closing_match in Ec.
  destruct (match_classes _ (drop k body)) eqn:Emc; [|done].
  injection Ec as <-.
  assert (exists post, drop k body = "]"%char :: "]"%char :: post) as (post & Hd).
  { destruct (drop k body) as [|x [|y post]]; cbn [match_classes] in Emc;
      [done|by rewrite andb_false_r in Emc|].
    unfold is_char in Emc.
    apply andb_prop in Emc as [Hx Hy]. apply andb_prop in Hy as [Hy _].
    apply Ascii.eqb_eq in Hx as <-. apply Ascii.eqb_eq in Hy as <-.
    by exists post. }
  rewrite Hd. split; [done|].
  assert (k <= span dot body) as Hks by lia.
  destruct (span_take _ _ _ Hks) as [Hall Hlen].
  remember (take k body) as g eqn:Eg.
  assert (body = g ++ py "]]" ++ post) as Hbody.
  { rewrite <- (take_drop k body), <- Eg, Hd. done. }
  apply (first_some_seq_min _ 0 _ k).
  - pose proof (span_ge dot g (py "]]") Hall). lia.
  - intros j Hj. specialize (Hmin j Hj).
    rewrite closing_match in *.
    assert (match_classes [is_char "]"; is_char "]"] (drop j (g ++ py "]]"))
            = match_classes [is_char "]"; is_char "]"] (drop j body)) as ->.
    { rewrite Hbody.
      rewrite app_assoc.
      rewrite (drop_app_le (g ++ py "]]") post j)
        by (rewrite length_app; simpl; lia).
      rewrite match_classes_prefix; [done|].
      rewrite length_drop, length_app. simpl. lia. }
    by destruct (match_classes _ (drop j body)).
  - rewrite <- Hlen. rewrite drop_app_length, take_app_length.
    done.
Qed.

Lemma tag_search_again (tag : str) (m : list str) :
  search tag_pattern tag = Some m ->
  search tag_pattern (group m) = Some m.
Proof.
  intros H. apply search_sound in H as (pre & rest & _ & H).
  apply search_at_start. unfold tag_pattern in *.
  apply re_match_lit_inv in H as (s1 & ps1 & -> & -> & H).
  apply re_match_lit_inv in H as (s2 & ps2 & -> & -> & H).
  destruct ps2 as [|g ps]. 
  { apply re_match_sound in H as [HF _]. inversion HF. }
  destruct (marker_matches_itself _ _ _ H) as [-> Hm].
  change (group [["["%char]; ["["%char]; g; py "]"; py "]"])
    with ("["%char :: "["%char :: g ++ py "]]").
  by rewrite !re_match_lit, Hm.
Qed.

(** X9. A tag with a marker is never resolved. With the files of the
    repository the call stops at [log.function_call()] with its
    [AttributeError]. Where that statement returns, the text [process_tag]
    searches in the inner call is the marker with its brackets, which has
    the marker again, so the calls nest until the stack is full and the
    result is a [RecursionError], however deep the stack is. *)
Theorem process_tag_with_marker_overflows
  {Data : Type} (depth iterations : nat) (tag : str) (data : Data)
  (m : list str) :
  search tag_pattern tag = Some m ->
  process_tag (Ret tt) depth (S iterations) tag data
  = Some (Raise RecursionError)
  /\ process_tag log_function_call (S depth) (S iterations) tag data
     = Some (Raise (AttributeError "function_call")).
Proof.
  intros H. split.
  - revert tag m H. induction depth as [|depth IH]; intros tag m H; [done|].
    cbn [process_tag]. rewrite H.
    rewrite (IH (group m) m (tag_search_again _ _ H)). done.
  - cbn [process_tag]. by rewrite log_function_call_raises.
Qed.

Lemma process_tag_with_marker_witness :
  process_tag (Ret tt) 1000 (S 0) (py "Dear [[Name]],") tag_content
  = Some (Raise RecursionError)
  /\ process_tag log_function_call (S 1000) (S 0) (py "Dear [[Name]],")
       tag_content
     = Some (Raise (AttributeError "function_call")).
Proof.
  apply (process_tag_with_marker_overflows 1000 0 (py "Dear [[Name]],")
           tag_content (found tag_pattern (py "Dear [[Name]],"))).
  vm_compute. reflexivity.
Defined.

(** * [_init_], [delete_log] and the method [scrape_log] *)

(** X10. After [_init_] has set the path, [delete_log] returns normally and
    leaves the instance without [log_file_path], its other attributes as
    before [_init_]; a second [delete_log] raises the [AttributeError] of
    [del], which [except IOError] does not catch, and changes the instance
    no more. *)
Theorem delete_log_once_after_init
  (self : LogScraper) (path : string) (w : world) :
  fst (fst (delete_log (_init_ self path) w)) = Ret tt
  /\ attributes (snd (fst (delete_log (_init_ self path) w)))
     = delete "log_file_path" (attributes self)
  /\ fst (fst (delete_log (snd (fst (delete_log (_init_ self path) w)))
                          (snd (delete_log (_init_ self path) w))))
     = Raise (AttributeError "log_file_path")
  /\ snd (fst (delete_log (snd (fst (delete_log (_init_ self path) w)))
                          (snd (delete_log (_init_ self path) w))))
     = snd (fst (delete_log (_init_ self path) w)).
Proof.
  assert (forall w', delete_log (_init_ self path) w'
                     = (Ret tt,
                        {| attributes := delete "log_file_path" (attributes self) |},
                        logger_log "INFO" "197" (py "Log deleted.")
                          (logger_log "INFO" "194" (py "Calling delete_log") w')))
    as H1.
  { intros w'. unfold delete_log, _init_. cbn [attributes].
    rewrite lookup_insert_eq. by rewrite delete_insert_eq. }
  assert (forall w', delete_log
                       {| attributes := delete "log_file_path" (attributes self) |} w'
                     = (Raise (AttributeError "log_file_path"),
                        {| attributes := delete "log_file_path" (attributes self) |},
                        logger_log "INFO" "194" (py "Calling delete_log") w'))
    as H2.
  { intros w'. unfold delete_log. cbn [attributes].
    by rewrite lookup_delete_eq. }
  rewrite H1. cbn [fst snd]. rewrite H2. done.
Qed.

Lemma scrape_loop_result (parsed : list entry) (lines : list str) (w : world) :
  fst (scrape_loop parsed lines w) = scrape_lines parsed lines.
Proof.
  revert parsed w. induction lines as [|l rest IH]; intros parsed w; [done|].
  cbn [scrape_loop scrape_lines].
  destruct (scrape_line parsed l); [apply IH|done].
Qed.

Lemma scrape_loop_other (parsed : list entry) (lines : list str) (w : world)
  (p : string) :
  p ∉ handler_files w ->
  files (snd (scrape_loop parsed lines w)) !! p = files w !! p.
Proof.
  revert parsed w. induction lines as [|l rest IH]; intros parsed w Hp; [done|].
  cbn [scrape_loop].
  set (w' := if starts_entry l then w else logger_log _ _ _ w).
  assert (files w' !! p = files w !! p /\ handler_file w' = handler_file w)
    as [Hf Hh].
  { unfold w'. destruct (starts_entry l); [done|]. by apply logger_log_other. }
  destruct (scrape_line parsed l); [|done].
  rewrite IH; [done|]. unfold handler_files in *. by rewrite Hh.
Qed.

(** X11. The method [scrape_log] on a file that is not one of the log
    handler's own: for a path with no file it raises [FileNotFoundError];
    else its outcome is that of the loop on the lines of the file, split at
    line feeds with [\r\n] and [\r] read as line feeds, and the records it
    logs on the way leave the file as it was. Without the attribute it
    raises [AttributeError]. *)
Theorem scrape_log_method_other_file
  (self : LogScraper) (w : world) (path : string) :
  attributes self !! "log_file_path" = Some path ->
  path ∉ handler_files w ->
  fst (scrape_log_method self w)
  = match files w !! path with
    | None => inl (FileNotFoundError path)
    | Some content =>
        match scrape_log (readlines content) with
        | Ret es => inr es
        | Raise e => inl (Exception e)
        end
    end
  /\ files (snd (scrape_log_method self w)) !! path = files w !! path
  /\ fst (scrape_log_method
            {| attributes := delete "log_file_path" (attributes self) |} w)
     = inl (Exception (AttributeError "log_file_path")).
Proof.
  intros Ha Hp.
  cut ((fst (scrape_log_method self w)
        = match files w !! path with
          | None => inl (FileNotFoundError path)
          | Some content =>
              match scrape_log (readlines content) with
              | Ret es => inr es
              | Raise e => inl (Exception e)
              end
          end
        /\ files (snd (scrape_log_method self w)) !! path = files w !! path)).
  { intros [H1 H2]. split; [done|]. split; [done|].
    unfold scrape_log_method. cbn [attributes]. by rewrite lookup_delete_eq. }
  unfold scrape_log_method. rewrite Ha.
  destruct (logger_log_other "INFO" "208" (py "Calling scrape_log") w path Hp)
    as [H1 Hh1].
  rewrite H1. destruct (files w !! path) as [content|] eqn:Ef; [|done].
  cbv zeta.
  set (w1 := logger_log "INFO" "208" _ w) in *.
  set (w2 := logger_log "INFO" "214" _ w1).
  assert (path ∉ handler_files w1) as Hp1.
  { unfold handler_files in *. by rewrite Hh1. }
  destruct (logger_log_other "INFO" "214"
              (py "Log read successful. Scraping log.") w1 path Hp1)
    as [H2 Hh2].
  assert (path ∉ handler_files w2) as Hp2.
  { unfold handler_files in *. unfold w2. by rewrite Hh2. }
  pose proof (scrape_loop_result [] (readlines content) w2) as Hr.
  pose proof (scrape_loop_other [] (readlines content) w2 path Hp2) as Ho.
  destruct (scrape_loop [] (readlines content) w2) as [[es|e] w3];
    cbn [fst snd] in *; unfold scrape_log; rewrite <- Hr.
  - split; [done|]. rewrite Ho. unfold w2. by rewrite H2, H1.
  - split; [done|]. rewrite Ho. unfold w2. by rewrite H2, H1.
Qed.

Lemma scrape_log_method_other_file_witness :
  fst (scrape_log_method scraper_other_log world_other_log)
  = match files world_other_log !! "/var/log/app.log" with
    | None => inl (FileNotFoundError "/var/log/app.log")
    | Some content =>
        match scrape_log (readlines content) with
        | Ret es => inr es
        | Raise e => inl (Exception e)
        end
    end
  /\ files (snd (scrape_log_method scraper_other_log world_other_log))
       !! "/var/log/app.log"
     = files world_other_log !! "/var/log/app.log"
  /\ fst (scrape_log_method
            {| attributes := delete "log_file_path"
                                    (attributes scraper_other_log) |}
            world_other_log)
     = inl (Exception (AttributeError "log_file_path")).
Proof.
  apply (scrape_log_method_other_file scraper_other_log world_other_log
           "/var/log/app.log").
  - vm_compute. reflexivity.
  - vm_compute. intros H.
    repeat (apply elem_of_cons in H as [H|H]; [discriminate H|]).
    by apply elem_of_nil in H.
Defined.

(** ** The lines of a file that grows *)

Lemma universal_newlines_plain (s : str) :
  forallb plain s = true ->
  universal_newlines (s ++ newline) = s ++ newline.
Proof.
  induction s as [|c s IH]; [done|]. cbn [forallb app universal_newlines].
  unfold plain at 1. intros [[Hc _]%andb_prop Hs]%andb_prop.
  apply negb_true_iff in Hc. rewrite Hc. by rewrite IH.
Qed.

(** A text that ends a line is read the same whatever is written after
    it. *)
Lemma universal_newlines_line (x : str) :
  exists y, forall b,
    universal_newlines (x ++ newline ++ b)
    = y ++ newline ++ universal_newlines b.
Proof.
  remember (length x) as n eqn:Hn. revert x Hn.
  induction n as [n IH] using lt_wf_ind. intros x Hn.
  destruct x as [|c x].
  { exists []. intros b. done. }
  destruct (Ascii.eqb c "013") eqn:Ec.
  - destruct x as [|c' x].
    + exists []. intros b. cbn. by rewrite Ec.
    + destruct (Ascii.eqb c' "010") eqn:Ec'.
      * destruct (IH (length x) ltac:(simpl in Hn; lia) x eq_refl) as (y & Hy).
        exists ("010"%char :: y). intros b. cbn [app universal_newlines].
        by rewrite Ec, Ec', Hy.
      * destruct (IH (length (c' :: x)) ltac:(simpl in Hn; simpl; lia)
                    (c' :: x) eq_refl) as (y & Hy).
        exists ("010"%char :: y). intros b.
        change (universal_newlines ((c :: c' :: x) ++ newline ++ b))
          with (if Ascii.eqb c "013"
                then "010"%char
                     :: (if Ascii.eqb c' "010"
                         then universal_newlines (x ++ newline ++ b)
                         else universal_newlines ((c' :: x) ++ newline ++ b))
                else c :: universal_newlines ((c' :: x) ++ newline ++ b)).
        by rewrite Ec, Ec', Hy.
  - destruct (IH (length x) ltac:(simpl in Hn; lia) x eq_refl) as (y & Hy).
    exists (c :: y). intros b. cbn [app universal_newlines].
    by rewrite Ec, Hy.
Qed.

Lemma lines_of_line (x b : str) :
  lines_of (x ++ newline ++ b) = lines_of (x ++ newline) ++ lines_of b.
Proof.
  induction x as [|c x IH]; [done|]. cbn [app lines_of].
  destruct (Ascii.eqb c "010"); [by rewrite IH|].
  rewrite IH. destruct (lines_of (x ++ newline)) eqn:E; [|done].
  exfalso. clear -E. induction x as [|c' x IH]; [done|].
  cbn [app lines_of] in E. destruct (Ascii.eqb c' "010"); [done|].
  by destruct (lines_of (x ++ newline)).
Qed.

Lemma lines_of_one (r : str) :
  forallb plain r = true -> lines_of (r ++ newline) = [r ++ newline].
Proof.
  induction r as [|c r IH]; [done|]. cbn [forallb app lines_of].
  unfold plain at 1. intros [[_ Hc]%andb_prop Hr]%andb_prop.
  apply negb_true_iff in Hc. rewrite Hc. by rewrite IH.
Qed.

(** A record written at the end of a file whose last line is complete is
    one more line for [readlines]. *)
Lemma readlines_appended (old record : str) :
  old = [] \/ (exists x, old = x ++ newline) ->
  forallb plain record = true ->
  readlines (old ++ record ++ newline)
  = readlines old ++ [record ++ newline].
Proof.
  intros Hold Hr. unfold readlines.
  assert (lines_of (universal_newlines (record ++ newline))
          = [record ++ newline]) as Hrec.
  { rewrite universal_newlines_plain by done. by apply lines_of_one. }
  destruct Hold as [->|(x & ->)]; [by rewrite !app_nil_l, Hrec|].
  destruct (universal_newlines_line x) as (y & Hy).
  rewrite <- app_assoc, Hy.
  pose proof (Hy []) as Hy0. rewrite !app_nil_r in Hy0. rewrite Hy0.
  by rewrite lines_of_line, Hrec.
Qed.

Lemma in_range_plain (a b c : ascii) :
  in_range a b c = true -> 14 <= code a -> plain c = true.
Proof.
  unfold in_range, plain. intros [H _]%andb_prop Ha. apply Nat.leb_le in H.
  destruct (Ascii.eqb_spec c "013") as [->|_].
  { change (code "013") with 13 in H. lia. }
  destruct (Ascii.eqb_spec c "010") as [->|_]; [|done].
  change (code "010") with 10 in H. lia.
Qed.

Lemma timestamp_plain (ts : str) (d : datetime) :
  timestamp_shaped ts -> fromisoformat ts = Ret d -> forallb plain ts = true.
Proof.
  intros [_ Hs] Hd. unfold fromisoformat in Hd.
  do 23 (destruct ts as [|? ts]; [done|]). destruct ts; [|done].
  destruct (forallb is_digit _ && _ && _ && _ && _ && _) eqn:Hc; [|done].
  clear Hd. apply andb_prop in Hc as [_ Hf].
  unfold TIMESTAMP_CLASSES in Hs. cbn [match_classes] in Hs.
  repeat match goal with
         | H : (_ && _) = true |- _ => apply andb_prop in H as [? ?]
         end.
  unfold is_digit in *.
  repeat match goal with
         | H : in_range _ _ _ = true |- _ =>
             apply in_range_plain in H; [|vm_compute; lia]
         | H : is_char _ ?c = true |- _ =>
             unfold is_char in H; apply Ascii.eqb_eq in H; subst c
         end.
  assert (plain a18 = true) as Hplain18.
  { apply orb_prop in Hf as [Hf|Hf]; [apply orb_prop in Hf as [Hf|Hf]|];
      unfold is_char in Hf; apply Ascii.eqb_eq in Hf; by subst a18. }
  cbn [forallb].
  repeat match goal with
         | H : plain _ = true |- _ => rewrite H; clear H
         end.
  reflexivity.
Qed.

Lemma stamp_not_in_call_record (ts : str) :
  timestamp_shaped ts ->
  contains ts (py " INFO [logger.py:208] Calling scrape_log" ++ newline)
  = false.
Proof.
  intros [Hlen Hs].
  do 23 (destruct ts as [|? ts]; [done|]). destruct ts; [|done].
  unfold TIMESTAMP_CLASSES in Hs. cbn [match_classes] in Hs.
  repeat match goal with
         | H : (_ && _) = true |- _ => apply andb_prop in H as [? ?]
         end.
  repeat match goal with
         | H : is_char _ ?c = true |- _ =>
             unfold is_char in H; apply Ascii.eqb_eq in H; subst c
         end.
  clear. cbv [py list_ascii_of_string app newline].
  cbn [contains startswith Ascii.eqb Bool.eqb andb orb].
  rewrite ?andb_false_r. reflexivity.
Qed.

Lemma call_record_parse (ts : str) (d : datetime) :
  timestamp_shaped ts -> fromisoformat ts = Ret d ->
  scrape_line [] (format ts "INFO" "208" (py "Calling scrape_log") ++ newline)
  = Ret [ Entry d (Some (py "INFO")) (Some (py "logger.py")) 208
                (py "Calling scrape_log") [] ].
Proof.
  intros Hs Hd.
  assert (normalise (py "Calling scrape_log") = py "Calling scrape_log")
    as Hn by (vm_compute; reflexivity).
  pose proof (formatted_record_parse ts d "INFO" "208" 208
                (py "Calling scrape_log") Hs Hd) as H.
  rewrite Hn in H.
  unfold scrape_log in H. cbn [scrape_lines] in H.
  destruct (scrape_line [] _) as [res|]; cbn [bind] in H.
  - rewrite <- H; [done| | | | | | |].
    + vm_compute. lia.
    + vm_compute. reflexivity.
    + vm_compute. reflexivity.
    + vm_compute. discriminate.
    + by apply stamp_not_in_call_record.
    + vm_compute. reflexivity.
    + vm_compute. reflexivity.
  - exfalso. assert (Raise e = Ret [ Entry d (Some (py "INFO"))
                       (Some (py "logger.py")) 208
                       (py "Calling scrape_log") [] ]) as Hx; [|done].
    apply H.
    + vm_compute. lia.
    + vm_compute. reflexivity.
    + vm_compute. reflexivity.
    + vm_compute. discriminate.
    + by apply stamp_not_in_call_record.
    + vm_compute. reflexivity.
    + vm_compute. reflexivity.
Qed.

Lemma scrape_log_own_file (self : LogScraper) (w : world) (old : str)
  (d : datetime) (es : list entry) :
  attributes self !! "log_file_path" = Some (handler_file w) ->
  default [] (files w !! handler_file w) = old ->
  old = [] \/ (exists x, old = x ++ newline) ->
  (Z.of_nat (length old
             + length (format (now w) "INFO" "208" (py "Calling scrape_log")
                         ++ newline)) < maxBytes)%Z ->
  timestamp_shaped (now w) ->
  fromisoformat (now w) = Ret d ->
  scrape_log (readlines old) = Ret es ->
  fst (scrape_log_method self w)
  = inr (es ++ [ Entry d (Some (py "INFO")) (Some (py "logger.py")) 208
                       (py "Calling scrape_log") [] ]).
Proof.
  intros Ha Hold Hend Hsize Hs Hd Hes.
  set (record := format (now w) "INFO" "208" (py "Calling scrape_log")) in *.
  assert (files (logger_log "INFO" "208" (py "Calling scrape_log") w)
            !! handler_file w = Some (old ++ record ++ newline)) as Hf.
  { destruct (logger_log_own "INFO" "208" (py "Calling scrape_log") w)
      as (-> & _). fold record. rewrite Hold.
    destruct (Z.leb_spec maxBytes (Z.of_nat (length old))) as [?|_]; [|done].
    rewrite length_app in Hsize. lia. }
  assert (forallb plain record = true) as Hp.
  { assert (record = now w ++ py " INFO [logger.py:208] Calling scrape_log")
      as -> by (vm_compute; reflexivity) || done.
    rewrite forallb_app, (timestamp_plain _ _ Hs Hd). vm_compute. reflexivity. }
  unfold scrape_log_method. rewrite Ha, Hf. cbv zeta.
  pose proof (scrape_loop_result [] (readlines (old ++ record ++ newline))
                (logger_log "INFO" "214"
                   (py "Log read successful. Scraping log.")
                   (logger_log "INFO" "208" (py "Calling scrape_log") w)))
    as Hr.
  destruct (scrape_loop _ _ _) as [r w3]. cbn [fst] in Hr. subst r.
  rewrite readlines_appended by done.
  unfold scrape_log in Hes. rewrite scrape_lines_app, Hes.
  cbn [bind scrape_lines].
  pose proof (call_record_parse (now w) d Hs Hd) as Hc. fold record in Hc.
  rewrite scrape_line_local, Hc; [done|].
  unfold starts_entry.
  destruct (search TIMESTAMP_REGEX (record ++ newline)) eqn:E; [done|].
  by rewrite scrape_line_first_continuation in Hc.
Qed.

(** X12. Scraping the file the module's own log handler writes to: the
    record the method logs before it opens the file is read with the rest.
    When the file is empty or ends with a line feed, is not about to be
    rotated, and the clock shows a valid date, the result is the entries of
    the file as it was, then one entry for the call itself: level [INFO],
    file [logger.py], line 208, content ["Calling scrape_log"]. *)
Theorem scrape_log_method_reads_its_own_record
  (self : LogScraper) (w : world) (old : str) (d : datetime)
  (es : list entry) :
  attributes self !! "log_file_path" = Some (handler_file w) ->
  default [] (files w !! handler_file w) = old ->
  old = [] \/ (exists x, old = x ++ newline) ->
  (Z.of_nat (length old
             + length (format (now w) "INFO" "208" (py "Calling scrape_log")
                         ++ newline)) < maxBytes)%Z ->
  timestamp_shaped (now w) ->
  fromisoformat (now w) = Ret d ->
  scrape_log (readlines old) = Ret es ->
  fst (scrape_log_method self w)
  = inr (es ++ [ Entry d (Some (py "INFO")) (Some (py "logger.py")) 208
                       (py "Calling scrape_log") [] ]).
Proof. apply scrape_log_own_file. Qed.

Lemma scrape_log_method_own_record_witness :
  fst (scrape_log_method scraper_own_log world_own_log)
  = inr ([entry_minimal]
           ++ [ Entry (Datetime 2024 1 15 10 31 0 0) (Some (py "INFO"))
                      (Some (py "logger.py")) 208
                      (py "Calling scrape_log") [] ]).
Proof.
  apply (scrape_log_method_reads_its_own_record
           scraper_own_log world_own_log (line_minimal ++ newline)).
  - vm_compute. reflexivity.
  - vm_compute. reflexivity.
  - right. by exists line_minimal.
  - vm_compute. reflexivity.
  - split; vm_compute; reflexivity.
  - vm_compute. reflexivity.
  - vm_compute. reflexivity.
Defined.
